(** * Recipe Guide: request handlers, string utilities and query configuration

    A shallow embedding of
    - the consolidated food/wine handler, [api/food/wine/[...action].ts]
      (module [FoodWine]),
    - the consolidated recipe-detail handler, the catch-all route under
      [/api/recipes/[recipeId]] (module [RecipeDetail]),
    - [recipe/src/utils/stringUtils.ts] (module [StringUtils]),
    - the React Query configuration: the [QueryClient] of the
      application entry point, the recipe hooks and the
      weather-suggestions hook (module [QueryConfig]),
    together with the fragment of the JavaScript run time these files
    rely on (module [JS]). *)

From Stdlib Require Import ZArith NArith List Bool Ascii String Lia SpecFloat.
From stdpp Require Import base option list gmap.

Set Default Proof Using "Type".

(** ** The JavaScript fragment *)

Module JS.

(** A JavaScript string is a sequence of UTF-16 code units. *)
Abbreviation jsstring := (list N).

(** String literals of the source are ASCII. *)
Definition lit (s : string) : jsstring :=
  map N_of_ascii (list_ascii_of_string s).

(** A Number is an IEEE 754 binary64 value. *)
Abbreviation jsnumber := spec_float.

Definition prec : Z := 53.
Definition emax : Z := 1024.

(** The Number value of a mathematical integer (round to nearest, ties
    to even). *)
Definition of_Z (z : Z) : jsnumber := binary_normalize prec emax z 0 false.

Definition NaN : jsnumber := S754_nan.

Definition isNaN (x : jsnumber) : bool :=
  match x with S754_nan => true | _ => false end.

(** [x < y] on Numbers: false as soon as one side is NaN ([x > y] is
    [y < x]). *)
Definition num_lt (x y : jsnumber) : bool := SFltb x y.

(** WhiteSpace and LineTerminator code points (all in the BMP), the set
    stripped by [String.prototype.trim] and skipped by [parseInt] and
    [parseFloat]. *)
Definition isWhiteSpace (c : N) : bool :=
  ((9 <=? c) && (c <=? 13) || (c =? 32) || (c =? 160) || (c =? 5760)
   || (8192 <=? c) && (c <=? 8202) || (c =? 8232) || (c =? 8233)
   || (c =? 8239) || (c =? 8287) || (c =? 12288) || (c =? 65279))%N.

Fixpoint trimStart (s : jsstring) : jsstring :=
  match s with
  | c :: r => if isWhiteSpace c then trimStart r else s
  | [] => []
  end.

Definition trimEnd (s : jsstring) : jsstring := rev (trimStart (rev s)).

Definition trim (s : jsstring) : jsstring := trimEnd (trimStart s).

(** [\d] *)
Definition isDigit (c : N) : bool := ((48 <=? c) && (c <=? 57))%N.

(** [\w] (no [u] or [i] flag): [A-Za-z0-9_]. *)
Definition isWordChar (c : N) : bool :=
  ((97 <=? c) && (c <=? 122) || (65 <=? c) && (c <=? 90) || isDigit c
   || (c =? 95))%N.

Fixpoint startsWith (s p : jsstring) {struct p} : bool :=
  match p, s with
  | [], _ => true
  | a :: p', b :: s' => (a =? b)%N && startsWith s' p'
  | _ :: _, [] => false
  end.

(** [String.prototype.includes] *)
Fixpoint includes (s sub : jsstring) : bool :=
  startsWith s sub ||
  match s with
  | [] => false
  | _ :: r => includes r sub
  end.

(** The longest prefix of decimal digits and what follows it. *)
Fixpoint spanDigits (s : jsstring) : jsstring * jsstring :=
  match s with
  | c :: r =>
      if isDigit c then let '(d, r') := spanDigits r in (c :: d, r') else ([], s)
  | [] => ([], [])
  end.

(** The mathematical value of a sequence of decimal digits. *)
Definition digitsValue (d : jsstring) : Z :=
  fold_left (fun acc c => 10 * acc + (Z.of_N c - 48))%Z d 0%Z.

(** An optional leading sign: [true] for [-]. *)
Definition spanSign (s : jsstring) : bool * jsstring :=
  match s with
  | 45%N :: r => (true, r)
  | 43%N :: r => (false, r)
  | _ => (false, s)
  end.

Definition signed (neg : bool) (z : Z) : Z := if neg then (- z)%Z else z.

(** [parseInt(string, 10)]: leading white space is skipped, then an
    optional sign and the longest run of decimal digits are read; no
    digit gives NaN.  The integer read is rounded to the nearest Number
    (an engine may round past the 20th significant digit otherwise). *)
Definition parseInt10 (input : jsstring) : jsnumber :=
  let '(neg, s) := spanSign (trimStart input) in
  let '(z, _) := spanDigits s in
  match z with
  | [] => NaN
  | _ =>
      let mathInt := digitsValue z in
      if (mathInt =? 0)%Z then S754_zero neg else of_Z (signed neg mathInt)
  end.

(** The Number value of [m * 10^e] for a mathematical integer [m >= 0]. *)
Definition of_decimal (neg : bool) (m e : Z) : jsnumber :=
  match m with
  | Zpos p =>
      match e with
      | Zneg k => SFdiv prec emax (S754_finite neg p 0)
                    (S754_finite false (Pos.pow 10 k) 0)
      | _ => of_Z (signed neg (m * 10 ^ e))
      end
  | _ => S754_zero neg
  end.

(** The optional ExponentPart of a StrDecimalLiteral: [e] or [E], an
    optional sign and at least one digit; anything else is not part of
    the literal. *)
Definition spanExponent (s : jsstring) : Z :=
  match s with
  | c :: r =>
      if ((c =? 101) || (c =? 69))%N then
        let '(neg, r') := spanSign r in
        let '(d, _) := spanDigits r' in
        match d with
        | [] => 0%Z
        | _ => signed neg (digitsValue d)
        end
      else 0%Z
  | [] => 0%Z
  end.

(** [parseFloat(string)]: leading white space is skipped and the longest
    prefix that is a StrDecimalLiteral is converted; no such prefix
    gives NaN.  The decimal read is rounded to the nearest Number (an
    engine may round past the 20th significant digit otherwise). *)
Definition parseFloat (input : jsstring) : jsnumber :=
  let '(neg, s) := spanSign (trimStart input) in
  if startsWith s (lit "Infinity") then S754_infinity neg
  else
    let '(int, r) := spanDigits s in
    let '(frac, r') :=
      match r with
      | 46%N :: r1 => spanDigits r1
      | _ => ([], r)
      end in
    match int ++ frac with
    | [] => NaN
    | ds => of_decimal neg (digitsValue ds)
              (spanExponent r' - Z.of_nat (length frac))
    end.

(** ToString of a Number that is a non-negative integer below 10^21:
    its decimal digits. *)
Fixpoint digitUnits (d : Decimal.uint) : jsstring :=
  match d with
  | Decimal.Nil => []
  | Decimal.D0 r => 48%N :: digitUnits r
  | Decimal.D1 r => 49%N :: digitUnits r
  | Decimal.D2 r => 50%N :: digitUnits r
  | Decimal.D3 r => 51%N :: digitUnits r
  | Decimal.D4 r => 52%N :: digitUnits r
  | Decimal.D5 r => 53%N :: digitUnits r
  | Decimal.D6 r => 54%N :: digitUnits r
  | Decimal.D7 r => 55%N :: digitUnits r
  | Decimal.D8 r => 56%N :: digitUnits r
  | Decimal.D9 r => 57%N :: digitUnits r
  end.

Definition integerToString (n : N) : jsstring := digitUnits (N.to_uint n).

(** [x === y] on Numbers *)
Definition num_eq (x y : jsnumber) : bool := SFeqb x y.

End JS.

(** ** Requests, responses and the upstream API *)

Module Http.
Import JS.

(** A value of [request.query]: [string | string[]]. *)
Inductive QueryValue :=
  | QStr (s : jsstring)
  | QArr (l : list jsstring).

(** [Array.prototype.join(",")] *)
Fixpoint join (l : list jsstring) : jsstring :=
  match l with
  | [] => []
  | [s] => s
  | s :: r => s ++ lit "," ++ join r
  end.

(** ToString, as applied by [parseInt], [parseFloat] and [RegExp.test]
    to their argument. *)
Definition toString (v : QueryValue) : jsstring :=
  match v with
  | QStr s => s
  | QArr l => join l
  end.

(** ToBoolean of a possibly undefined query value: [undefined] and the
    empty string are falsy, every array is truthy. *)
Definition truthy (v : option QueryValue) : bool :=
  match v with
  | None => false
  | Some (QStr []) => false
  | Some _ => true
  end.

(** [v || d] *)
Definition or_else (v : option QueryValue) (d : QueryValue) : QueryValue :=
  match v with
  | Some x => if truthy v then x else d
  | None => d
  end.

(** [v === "literal"] *)
Definition strict_eq (v : option QueryValue) (s : jsstring) : bool :=
  match v with
  | Some (QStr t) => bool_decide (t = s)
  | _ => false
  end.

(** [path[0]]: the first element of an array, the first code unit of a
    string, [undefined] when there is none. *)
Definition index0 (path : QueryValue) : option jsstring :=
  match path with
  | QArr l => head l
  | QStr s => (fun c => [c]) <$> head s
  end.

Record Request := {
  method : option jsstring;
  query : gmap jsstring QueryValue
}.

#[warnings="-register-all"]
Inductive Json :=
  | JNull
  | JBool (b : bool)
  | JNumber (n : jsnumber)
  | JString (s : jsstring)
  | JArray (l : list Json)
  | JObject (fields : list (jsstring * Json)).

Record Response := {
  statusCode : Z;
  headers : list (jsstring * jsstring);
  body : option Json
}.

(** [response.status(code)] *)
Definition status (response : Response) (code : Z) : Response :=
  {| statusCode := code; headers := headers response; body := body response |}.

(** [response.json(value)] *)
Definition json (response : Response) (value : Json) : Response :=
  {| statusCode := statusCode response; headers := headers response;
     body := Some value |}.

(** [{ error: text }] *)
Definition errorBody (text : string) : Json :=
  JObject [(lit "error", JString (lit text))].

(** What a [throw] carries: an [Error] with its message, or a value that
    is not an [Error]. *)
Inductive Thrown :=
  | ThrownError (message : jsstring)
  | ThrownValue.

(** [error instanceof Error ? error.message : "Unknown error"] *)
Definition messageOf (error : Thrown) : jsstring :=
  match error with
  | ThrownError message => message
  | ThrownValue => lit "Unknown error"
  end.

(** [errorMessage.includes("limit") || errorMessage.includes("402") ? 402 : 500] *)
Definition statusCodeOf (errorMessage : jsstring) : Z :=
  if includes errorMessage (lit "limit") || includes errorMessage (lit "402")
  then 402 else 500.

End Http.

(** The functions the handlers import from [lib/recipe-api.js]; each
    application is one HTTP call to the upstream API. *)
Module RecipeApi.
Import JS Http.

Record InformationOptions := {
  includeNutrition : bool;
  addWinePairing : bool;
  addTasteData : bool
}.

Inductive ApiCall :=
  | getDishPairingForWine (wine : option QueryValue)
  | getWinePairing (food : option QueryValue) (maxPrice : option jsnumber)
  | getRecipeInformation (recipeId : QueryValue) (options : InformationOptions)
  | getSimilarRecipes (recipeId : QueryValue) (number : jsnumber)
  | getRecipeSummary (recipeId : QueryValue).

(** The body of a [try] block: the upstream calls made so far, and
    either a value or what was thrown. *)
Definition Comp (A : Type) : Type := (list ApiCall * (A + Thrown))%type.

Definition ret {A} (a : A) : Comp A := ([], inl a).

Definition throw {A} (t : Thrown) : Comp A := ([], inr t).

Definition bind {A B} (m : Comp A) (k : A -> Comp B) : Comp B :=
  match m with
  | (calls, inl a) => let '(calls', r) := k a in (calls ++ calls', r)
  | (calls, inr t) => (calls, inr t)
  end.

(** [await f(args)] against the upstream API. *)
Definition await (upstream : ApiCall -> Json + Thrown) (c : ApiCall) : Comp Json :=
  ([c], upstream c).

(** [value.trim()] on a query value: only strings have the method. *)
Definition trimOf (name : string) (v : option QueryValue) : Comp jsstring :=
  match v with
  | Some (QStr s) => ret (trim s)
  | Some (QArr _) =>
      throw (ThrownError (lit name ++ lit ".trim is not a function"))
  | None =>
      throw (ThrownError
               (lit "Cannot read properties of undefined (reading 'trim')"))
  end.

(** [!value || value.trim().length === 0] *)
Definition isBlank (name : string) (v : option QueryValue) : Comp bool :=
  if negb (truthy v) then ret true
  else bind (trimOf name v) (fun t => ret (Nat.eqb (length t) 0)).

End RecipeApi.

Notation "'do' x <- m ; k" := (RecipeApi.bind m (fun x => k))
  (at level 10, x name, m at level 100, k at level 200).

(** ** The consolidated food/wine handler *)

Module FoodWine.
Import JS Http RecipeApi.

Section Handler.
(** [handleCorsPreflight] and [setCorsHeaders] of [lib/api-utils.js]
    act on the response object; the former reports whether it has
    answered the request. *)
Variable handleCorsPreflight : Request -> Response -> bool * Response.
Variable setCorsHeaders : Response -> Response.
Variable upstream : ApiCall -> Json + Thrown.

(** The body of the [try] block. *)
Definition route (request : Request) (response : Response)
    (action : option jsstring) : Comp Response :=
  if bool_decide (action = Some (lit "dishes")) then
    let wine := query request !! lit "wine" in
    do missing <- isBlank "wine" wine;
    if missing then
      ret (json (status response 400) (errorBody "Wine type is required"))
    else
      do results <- await upstream (getDishPairingForWine wine);
      ret (json (status response 200) results)
  else if bool_decide (action = Some (lit "pairing")) then
    let food := query request !! lit "food" in
    let maxPrice :=
      if truthy (query request !! lit "maxPrice")
      then parseFloat <$> (toString <$> query request !! lit "maxPrice")
      else None in
    do missing <- isBlank "food" food;
    if missing then
      ret (json (status response 400) (errorBody "Food name is required"))
    else if match maxPrice with
            | Some price => isNaN price || num_lt price (of_Z 0)
            | None => false
            end then
      ret (json (status response 400)
             (errorBody "maxPrice must be a positive number"))
    else
      do results <- await upstream (getWinePairing food maxPrice);
      ret (json (status response 200) results)
  else
    ret (json (status response 404) (errorBody "Not found")).

(** The [catch] block. *)
Definition recover (response : Response) (error : Thrown) : Response :=
  let errorMessage := messageOf error in
  let statusCode := statusCodeOf errorMessage in
  json (status response statusCode)
    (JObject [(lit "error", JString (lit "Failed to process request"));
              (lit "message", JString errorMessage)]).

(** The handler: the response it leaves behind and the upstream calls
    it made, in order. *)
Definition handler (request : Request) (response : Response)
    : Response * list ApiCall :=
  let '(answered, response) := handleCorsPreflight request response in
  if answered then (response, [])
  else if negb (bool_decide (method request = Some (lit "GET"))) then
    let response := setCorsHeaders response in
    (json (status response 405) (errorBody "Method not allowed"), [])
  else
    let response := setCorsHeaders response in
    let path := or_else (query request !! lit "action") (QArr []) in
    let action := index0 path in
    match route request response action with
    | (calls, inl response') => (response', calls)
    | (calls, inr error) => (recover response error, calls)
    end.
End Handler.

End FoodWine.

(** ** The consolidated recipe-detail handler *)

Module RecipeDetail.
Import JS Http RecipeApi.

(** [/^\d+$/.test(value)] *)
Definition allDigits (value : QueryValue) : bool :=
  match toString value with
  | [] => false
  | s => forallb isDigit s
  end.

Section Handler.
Variable handleCorsPreflight : Request -> Response -> bool * Response.
Variable setCorsHeaders : Response -> Response.
Variable upstream : ApiCall -> Json + Thrown.

(** The body of the [try] block. *)
Definition route (request : Request) (response : Response)
    (recipeId : QueryValue) (action : option jsstring) : Comp Response :=
  if bool_decide (action = Some (lit "information")) then
    let options :=
      {| includeNutrition :=
           strict_eq (query request !! lit "includeNutrition") (lit "true");
         addWinePairing :=
           strict_eq (query request !! lit "addWinePairing") (lit "true");
         addTasteData :=
           strict_eq (query request !! lit "addTasteData") (lit "true") |} in
    do results <- await upstream (getRecipeInformation recipeId options);
    ret (json (status response 200) results)
  else if bool_decide (action = Some (lit "similar")) then
    let number :=
      match query request !! lit "number" with
      | Some v => if truthy (Some v) then parseInt10 (toString v) else of_Z 10
      | None => of_Z 10
      end in
    if isNaN number || num_lt number (of_Z 1) || num_lt (of_Z 100) number then
      ret (json (status response 400)
             (errorBody "Number must be between 1 and 100"))
    else
      do results <- await upstream (getSimilarRecipes recipeId number);
      ret (json (status response 200) results)
  else if bool_decide (action = Some (lit "summary")) then
    do results <- await upstream (getRecipeSummary recipeId);
    ret (json (status response 200) results)
  else
    ret (json (status response 404) (errorBody "Not found")).

(** The [catch] block. *)
Definition recover (response : Response) (error : Thrown) : Response :=
  let errorMessage := messageOf error in
  let statusCode := statusCodeOf errorMessage in
  json (status response statusCode)
    (JObject [(lit "error", JString (lit "Failed to fetch recipe data"));
              (lit "message", JString errorMessage)]).

Definition handler (request : Request) (response : Response)
    : Response * list ApiCall :=
  let '(answered, response) := handleCorsPreflight request response in
  if answered then (response, [])
  else
    let response := setCorsHeaders response in
    let recipeId := or_else (query request !! lit "recipeId") (QStr []) in
    if negb (truthy (Some recipeId)) || negb (allDigits recipeId) then
      (json (status response 400) (errorBody "Valid recipe ID is required"), [])
    else
      let path := or_else (query request !! lit "action") (QArr []) in
      let action := index0 path in
      if negb (bool_decide (method request = Some (lit "GET"))) then
        (json (status response 405) (errorBody "Method not allowed"), [])
      else
        match route request response recipeId action with
        | (calls, inl response') => (response', calls)
        | (calls, inr error) => (recover response error, calls)
        end.
End Handler.

End RecipeDetail.

(** ** [recipe/src/utils/stringUtils.ts] *)

Module StringUtils.
Import JS.

(** [String.prototype.toUpperCase] on the strings the callback of
    [capitalizeWords] receives: a single code unit matched by [\w], on
    which only [a-z] changes. *)
Definition upperUnit (c : N) : N :=
  if ((97 <=? c) && (c <=? 122))%N then (c - 32)%N else c.

Definition toUpperCase (s : jsstring) : jsstring := map upperUnit s.

(** [s.replace(/\b\w/g, f)]: a match is a word character that is not
    preceded by a word character; [prevWord] tells whether the code unit
    before [s] is one. *)
Fixpoint replaceWordStarts (f : jsstring -> jsstring) (prevWord : bool)
    (s : jsstring) : jsstring :=
  match s with
  | [] => []
  | c :: r =>
      (if isWordChar c && negb prevWord then f [c] else [c])
        ++ replaceWordStarts f (isWordChar c) r
  end.

Definition capitalizeWords (str : option jsstring) : jsstring :=
  match str with
  | None => []
  | Some [] => []
  | Some s => replaceWordStarts (fun char => toUpperCase char) false s
  end.

(** The pattern [/<a /g] and the replacement text of
    [addTargetBlankToLinks] (code unit 34 is the double quote). *)
Definition anchorOpen : jsstring := lit "<a ".

Definition anchorBlank : jsstring :=
  lit "<a target=" ++ [34%N] ++ lit "_blank" ++ [34%N] ++ lit " rel=" ++ [34%N]
    ++ lit "noopener noreferrer" ++ [34%N] ++ lit " ".

(** [s.replace(/<a /g, anchorBlank)]: matches are found from left to
    right and do not overlap; [skip] counts the code units of the
    current match that are still to be passed over. *)
Fixpoint replaceAnchors (skip : nat) (s : jsstring) : jsstring :=
  match s with
  | [] => []
  | c :: r =>
      match skip with
      | S k => replaceAnchors k r
      | O =>
          if startsWith s anchorOpen then anchorBlank ++ replaceAnchors 2 r
          else c :: replaceAnchors 0 r
      end
  end.

Definition addTargetBlankToLinks (html : option jsstring) : jsstring :=
  match html with
  | None => []
  | Some [] => []
  | Some s => replaceAnchors 0 s
  end.

End StringUtils.

(** ** The React Query configuration *)

Module QueryConfig.
Import JS.

Inductive Duration :=
  | Ms (ms : Z)
  | Forever.

(** [retry]: [boolean | number | (failureCount, error) => boolean] *)
Inductive RetryValue :=
  | RetryNumber (n : Z)
  | RetryBoolean (b : bool)
  | RetryFunction (f : Z -> bool).

(** [retryDelay]: [number | (failureCount, error) => number] *)
Inductive RetryDelayValue :=
  | DelayNumber (ms : Z)
  | DelayFunction (f : Z -> Z).

Inductive RefetchValue :=
  | Refetch (b : bool)
  | RefetchAlways.

(** The scalar options of a query; an option left out of the object
    literal is [None].  [queryKey], [queryFn] and [placeholderData] are
    left out of the record. *)
Record QueryOptions := {
  enabled : option bool;
  staleTime : option Duration;
  gcTime : option Z;
  retry : option RetryValue;
  retryDelay : option RetryDelayValue;
  refetchOnMount : option RefetchValue;
  refetchOnWindowFocus : option bool;
  refetchOnReconnect : option bool
}.

Record MutationOptions := {
  mutationRetry : option RetryValue;
  mutationRetryDelay : option RetryDelayValue
}.

Record DefaultOptions := {
  queries : QueryOptions;
  mutations : MutationOptions
}.

(** The entry point: [new QueryClient({ defaultOptions })] *)
Definition queryClient : DefaultOptions :=
  {| queries :=
       {| enabled := None;
          staleTime := Some Forever;
          gcTime := Some (60 * 60 * 1000)%Z;
          retry := Some (RetryNumber 1);
          retryDelay := None;
          refetchOnMount := Some (Refetch true);
          refetchOnWindowFocus := Some false;
          refetchOnReconnect := Some false |};
     mutations := {| mutationRetry := Some (RetryNumber 0);
                     mutationRetryDelay := None |} |}.

(** [!!value] on an optional string *)
Definition nonEmpty (s : option jsstring) : bool :=
  match s with
  | Some (_ :: _) => true
  | _ => false
  end.

(** The recipe hooks *)
Definition useSearchRecipes (searchTerm : jsstring) (page : jsnumber)
    (isEnabled : bool) : QueryOptions :=
  {| enabled := Some (isEnabled && nonEmpty (Some searchTerm));
     staleTime := Some Forever;
     gcTime := Some (5 * 60 * 1000)%Z;
     retry := Some (RetryNumber 1);
     retryDelay := None;
     refetchOnMount := Some (Refetch true);
     refetchOnWindowFocus := None;
     refetchOnReconnect := None |}.

Definition useFavouriteRecipes : QueryOptions :=
  {| enabled := None;
     staleTime := Some Forever;
     gcTime := Some (5 * 60 * 1000)%Z;
     retry := Some (RetryNumber 1);
     retryDelay := None;
     refetchOnMount := Some (Refetch true);
     refetchOnWindowFocus := None;
     refetchOnReconnect := None |}.

Definition useRecipeSummary (recipeId : option jsstring) (isEnabled : bool)
    : QueryOptions :=
  {| enabled := Some (isEnabled && nonEmpty recipeId);
     staleTime := Some Forever;
     gcTime := Some (5 * 60 * 1000)%Z;
     retry := Some (RetryNumber 1);
     retryDelay := None;
     refetchOnMount := Some (Refetch true);
     refetchOnWindowFocus := None;
     refetchOnReconnect := None |}.

Definition useAddFavouriteRecipe : MutationOptions :=
  {| mutationRetry := None; mutationRetryDelay := None |}.

Definition useRemoveFavouriteRecipe : MutationOptions :=
  {| mutationRetry := None; mutationRetryDelay := None |}.

(** The weather-suggestions hook *)
Inductive Units := metric | imperial.

Record Location := {
  lat : option jsnumber;
  lon : option jsnumber;
  city : option jsstring;
  units : option Units
}.

Definition useWeatherSuggestions (location : option Location)
    (isEnabled : bool) : QueryOptions :=
  {| enabled := Some (isEnabled && bool_decide (is_Some location));
     staleTime := Some (Ms (5 * 60 * 1000));
     gcTime := Some (10 * 60 * 1000)%Z;
     retry := Some (RetryNumber 2);
     retryDelay := Some (DelayNumber 1000);
     refetchOnMount := Some RefetchAlways;
     refetchOnWindowFocus := Some true;
     refetchOnReconnect := None |}.

(** The options object of a hook that calls [useQuery]. *)
Inductive Configured : QueryOptions -> Prop :=
  | CSearch searchTerm page isEnabled :
      Configured (useSearchRecipes searchTerm page isEnabled)
  | CFavourites : Configured useFavouriteRecipes
  | CSummary recipeId isEnabled :
      Configured (useRecipeSummary recipeId isEnabled)
  | CWeather location isEnabled :
      Configured (useWeatherSuggestions location isEnabled)
  | CDefault : Configured (queries queryClient).

(** A retry policy without back-off: a literal number of retries, and a
    delay that is left out or a literal number of milliseconds. *)
Definition fixedRetry (o : QueryOptions) : Prop :=
  (exists n, retry o = Some (RetryNumber n)) /\
  (retryDelay o = None \/ exists ms, retryDelay o = Some (DelayNumber ms)).

(** How React Query (the library, not part of the repository) uses
    these options.  The options of a hook are laid over the defaults of
    the client; after the [failureCount]-th failure in a row the query
    is retried when [retry] is [true], a number above [failureCount],
    or a function that says so, and the retry waits [retryDelay], a
    number of milliseconds or a function of [failureCount].  Options
    left out fall back to the library's own: [defaultRetry] and
    [defaultRetryDelay], which doubles the delay with each failure. *)
Definition over {A} (own fallback : option A) : option A :=
  match own with
  | Some x => Some x
  | None => fallback
  end.

Definition withDefaults (defaults options : QueryOptions) : QueryOptions :=
  {| enabled := over (enabled options) (enabled defaults);
     staleTime := over (staleTime options) (staleTime defaults);
     gcTime := over (gcTime options) (gcTime defaults);
     retry := over (retry options) (retry defaults);
     retryDelay := over (retryDelay options) (retryDelay defaults);
     refetchOnMount := over (refetchOnMount options) (refetchOnMount defaults);
     refetchOnWindowFocus :=
       over (refetchOnWindowFocus options) (refetchOnWindowFocus defaults);
     refetchOnReconnect :=
       over (refetchOnReconnect options) (refetchOnReconnect defaults) |}.

Definition mutationWithDefaults (defaults options : MutationOptions)
    : MutationOptions :=
  {| mutationRetry := over (mutationRetry options) (mutationRetry defaults);
     mutationRetryDelay :=
       over (mutationRetryDelay options) (mutationRetryDelay defaults) |}.

Section Retryer.
Variable defaultRetry : RetryValue.
Variable defaultRetryDelay : Z -> Z.

Definition shouldRetry (r : option RetryValue) (failureCount : Z) : bool :=
  match default defaultRetry r with
  | RetryNumber n => (failureCount <? n)%Z
  | RetryBoolean b => b
  | RetryFunction f => f failureCount
  end.

Definition delayOf (d : option RetryDelayValue) (failureCount : Z) : Z :=
  match d with
  | Some (DelayNumber ms) => ms
  | Some (DelayFunction f) => f failureCount
  | None => defaultRetryDelay failureCount
  end.

(** The waits before the successive retries of a request that keeps
    failing, from [failureCount] failures on and at most [fuel] of
    them. *)
Fixpoint retryDelays (fuel : nat) (r : option RetryValue)
    (d : option RetryDelayValue) (failureCount : Z) : list Z :=
  match fuel with
  | O => []
  | S k =>
      if shouldRetry r failureCount
      then delayOf d failureCount :: retryDelays k r d (failureCount + 1)
      else []
  end.

(** The waits of a query and of a mutation under the client of the
    application. *)
Definition queryDelays (fuel : nat) (options : QueryOptions) : list Z :=
  let o := withDefaults (queries queryClient) options in
  retryDelays fuel (retry o) (retryDelay o) 0.

Definition mutationDelays (fuel : nat) (options : MutationOptions) : list Z :=
  let o := mutationWithDefaults (mutations queryClient) options in
  retryDelays fuel (mutationRetry o) (mutationRetryDelay o) 0.

End Retryer.

(** No back-off: all the waits are the same. *)
Definition steady (waits : list Z) : Prop :=
  forall a b, In a waits -> In b waits -> a = b.

End QueryConfig.

(** ** The API client of the single-page application *)

Module ApiClient.
Import JS Http.

(** The second argument of [fetch]; [initBody] is the value handed to
    [JSON.stringify]. *)
Record RequestInit := {
  initMethod : jsstring;
  initHeaders : list (jsstring * jsstring);
  initBody : Json
}.

(** A [URL] object: what it was built from and the pairs appended to
    its [searchParams]. *)
Record Url := {
  urlInput : jsstring;
  urlBase : option jsstring;
  searchParams : list (jsstring * jsstring)
}.

(** What [fetch] is called with. *)
Inductive Resource :=
  | FetchPath (path : jsstring) (init : option RequestInit)
  | FetchUrl (url : Url).

(** What the client reads of a [Response]: [ok], [status] (an unsigned
    short) and the outcome of [json()]. *)
Record FetchResponse := {
  ok : bool;
  status : N;
  parsed : Json + Thrown
}.

(** A [Recipe] of [types.ts]. *)
Record Recipe := {
  id : jsnumber;
  title : jsstring;
  image : jsstring;
  imageType : jsstring
}.

Section Client.
(** [import.meta.env.VITE_API_URL] and [window.location.origin] *)
Variable API_URL : option jsstring.
Variable origin : jsstring.
(** [new URL(input, base)] throws a [TypeError] on an invalid URL:
    [urlError] gives its message, if any. *)
Variable urlError : jsstring -> option jsstring -> option jsstring.
(** [String(page)] *)
Variable numberToString : jsnumber -> jsstring.
(** [fetch] resolves with a response or rejects. *)
Variable fetch : Resource -> FetchResponse + Thrown.

Definition getApiUrl (path : jsstring) : jsstring :=
  match API_URL with
  | Some (c :: base) =>
      let cleanPath := if startsWith path (lit "/") then path else lit "/" ++ path in
      (c :: base) ++ cleanPath
  | _ => path
  end.

(** [new Error(`HTTP error! Status: ${response.status}`)] *)
Definition httpError (response : FetchResponse) : Thrown :=
  ThrownError (lit "HTTP error! Status: " ++ integerToString (status response)).

Definition searchRecipes (searchTerm : jsstring) (page : jsnumber)
    : Json + Thrown :=
  let apiPath := getApiUrl (lit "/api/recipes/search") in
  let base :=
    match API_URL with
    | Some (_ :: _) => None
    | _ => Some origin
    end in
  match urlError apiPath base with
  | Some message => inr (ThrownError message)
  | None =>
      let url :=
        {| urlInput := apiPath; urlBase := base;
           searchParams := [(lit "searchTerm", searchTerm);
                            (lit "page", numberToString page)] |} in
      match fetch (FetchUrl url) with
      | inr error => inr error
      | inl response =>
          if negb (ok response) then inr (httpError response)
          else parsed response
      end
  end.

Definition getRecipeSummary (recipeId : jsstring) : Json + Thrown :=
  let apiPath :=
    getApiUrl (lit "/api/recipes/" ++ recipeId ++ lit "/summary") in
  match fetch (FetchPath apiPath None) with
  | inr error => inr error
  | inl response =>
      if negb (ok response) then inr (httpError response) else parsed response
  end.

Definition getFavouriteRecipes : Json + Thrown :=
  let apiPath := getApiUrl (lit "/api/recipes/favourite") in
  match fetch (FetchPath apiPath None) with
  | inr error => inr error
  | inl response =>
      if negb (ok response) then inr (httpError response) else parsed response
  end.

(** [addFavouriteRecipe] and [removeFavouriteRecipe] differ in the
    method only. *)
Definition favouriteRequest (verb : string) (recipe : Recipe) : unit + Thrown :=
  let apiPath := getApiUrl (lit "/api/recipes/favourite") in
  let body := JObject [(lit "recipeId", JNumber (id recipe))] in
  match fetch (FetchPath apiPath
                 (Some {| initMethod := lit verb;
                          initHeaders :=
                            [(lit "Content-Type", lit "application/json")];
                          initBody := body |})) with
  | inr error => inr error
  | inl response =>
      if negb (ok response) then inr (httpError response) else inl tt
  end.

Definition addFavouriteRecipe (recipe : Recipe) : unit + Thrown :=
  favouriteRequest "POST" recipe.

Definition removeFavouriteRecipe (recipe : Recipe) : unit + Thrown :=
  favouriteRequest "DELETE" recipe.

End Client.

End ApiClient.

(** ** The application component and the recipe hooks' callbacks *)

Module App.
Import JS Http QueryConfig.

Inductive Toast :=
  | ToastError (text : jsstring)
  | ToastInfo (text : jsstring)
  | ToastSuccess (text : jsstring).

(** What the error callbacks read of an error: its [code] and its
    [message], when it has them. *)
Record ErrorView := {
  code : option jsnumber;
  message : option jsstring
}.

(** An [Error] made by [new Error(message)] has no [code]. *)
Definition plainError (text : jsstring) : ErrorView :=
  {| code := None; message := Some text |}.

(** [error?.message?.includes(word)] *)
Definition messageIncludes (error : ErrorView) (word : jsstring) : bool :=
  match message error with
  | Some text => includes text word
  | None => false
  end.

(** [error?.code === 402] *)
Definition codeIs402 (c : option jsnumber) : bool :=
  match c with
  | Some n => num_eq n (of_Z 402)
  | None => false
  end.

(** The toast of the search-error effect. *)
Definition searchErrorToast (error : ErrorView) : Toast :=
  if codeIs402 (code error) || messageIncludes error (lit "points limit")
  then ToastError (lit "Daily API limit reached. Please try again later or upgrade your plan.")
  else ToastError (lit "Failed to search recipes. Please try again.").

(** [onError] of [useAddFavouriteRecipe] *)
Definition addFavouriteOnError (error : ErrorView) : Toast :=
  if messageIncludes error (lit "already")
  then ToastInfo (lit "Recipe is already in favourites.")
  else ToastError (lit "Failed to add recipe to favourites.").

(** A [SearchRecipesResponse] of [types.ts], as far as the component
    reads it. *)
Record SearchRecipesResponse := {
  results : option (list ApiClient.Recipe);
  responseStatus : option jsstring;
  responseCode : option jsnumber;
  responseMessage : option jsstring
}.

(** The memo [recipes] *)
Definition recipes (searchResponse : option SearchRecipesResponse)
    : list ApiClient.Recipe :=
  match searchResponse with
  | Some response =>
      match results response with
      | Some list => list
      | None => []
      end
  | None => []
  end.

(** The memo [apiError] *)
Definition apiError (searchResponse : option SearchRecipesResponse) : jsstring :=
  match searchResponse with
  | Some response =>
      if bool_decide (responseStatus response = Some (lit "failure"))
         || codeIs402 (responseCode response)
      then
        if nonEmpty (responseMessage response)
        then default [] (responseMessage response)
        else lit "Daily API limit reached. Please try again later."
      else []
  | None => []
  end.

(** The options of the search query as the component asks for them:
    [useSearchRecipes(searchTerm, currentPage,
                      !!searchTerm && selectedTab === "search")] *)
Definition searchQuery (searchTerm : jsstring) (currentPage : jsnumber)
    (selectedTab : jsstring) : QueryOptions :=
  useSearchRecipes searchTerm currentPage
    (nonEmpty (Some searchTerm) && bool_decide (selectedTab = lit "search")).

End App.

(** ** The recipe context: state and URL synchronisation *)

Module RecipeContext.
Import JS.

(** [URLSearchParams]: an ordered list of name-value pairs.  The
    location is kept as the list that [window.location.search] parses
    to, and [replaceState(..., `?${params}`)] stores a list back. *)
Abbreviation Params := (list (jsstring * jsstring)).

(** [params.get(name)]: the first value of that name *)
Fixpoint get (params : Params) (name : jsstring) : option jsstring :=
  match params with
  | [] => None
  | (k, v) :: rest => if bool_decide (k = name) then Some v else get rest name
  end.

Definition without (params : Params) (name : jsstring) : Params :=
  filter (fun kv => kv.1 <> name) params.

(** [params.set(name, value)]: the first pair of that name takes the
    value and the others go; without such a pair one is appended. *)
Fixpoint set (params : Params) (name value : jsstring) : Params :=
  match params with
  | [] => [(name, value)]
  | (k, v) :: rest =>
      if bool_decide (k = name) then (k, value) :: without rest name
      else (k, v) :: set rest name value
  end.

Record State := {
  selectedRecipe : option ApiClient.Recipe;
  searchTerm : jsstring;
  selectedTab : jsstring;
  currentPage : jsnumber
}.

(** [useState] initial values *)
Definition initial : State :=
  {| selectedRecipe := None; searchTerm := []; selectedTab := lit "search";
     currentPage := of_Z 1 |}.

Definition withRecipe (st : State) (recipe : option ApiClient.Recipe) : State :=
  {| selectedRecipe := recipe; searchTerm := searchTerm st;
     selectedTab := selectedTab st; currentPage := currentPage st |}.

Definition withSearchTerm (st : State) (term : jsstring) : State :=
  {| selectedRecipe := selectedRecipe st; searchTerm := term;
     selectedTab := selectedTab st; currentPage := currentPage st |}.

Definition withTab (st : State) (tab : jsstring) : State :=
  {| selectedRecipe := selectedRecipe st; searchTerm := searchTerm st;
     selectedTab := tab; currentPage := currentPage st |}.

(** [urlTab === "search" || urlTab === "favourites"] *)
Definition isTab (tab : jsstring) : bool :=
  bool_decide (tab = lit "search") || bool_decide (tab = lit "favourites").

(** A string is truthy when it is not empty. *)
Definition filled (s : option jsstring) : bool :=
  match s with
  | Some (_ :: _) => true
  | _ => false
  end.

Section Effects.
(** [selectedRecipe.id.toString()] *)
Variable idToString : jsnumber -> jsstring.

(** One run of an effect: the state after its [set...] call, if any,
    and the parameters of the location after its [replaceState], if
    any. *)
Definition recipeEffect (st : State) (location : Params) : State * Params :=
  let recipeId := get location (lit "recipeId") in
  match selectedRecipe st with
  | None => (st, location)
  | Some recipe =>
      if negb (filled recipeId) then
        (st, set location (lit "recipeId") (idToString (ApiClient.id recipe)))
      else if negb (bool_decide
                      (recipeId = Some (idToString (ApiClient.id recipe)))) then
        (withRecipe st None, location)
      else (st, location)
  end.

Definition searchEffect (st : State) (location : Params) : State * Params :=
  let urlSearchTerm := get location (lit "search") in
  if filled urlSearchTerm
     && negb (bool_decide (urlSearchTerm = Some (searchTerm st))) then
    (withSearchTerm st (default [] urlSearchTerm), location)
  else if filled (Some (searchTerm st)) && negb (filled urlSearchTerm) then
    (st, set location (lit "search") (searchTerm st))
  else (st, location).

Definition tabEffect (st : State) (location : Params) : State * Params :=
  let urlTab := get location (lit "tab") in
  if filled urlTab && isTab (default [] urlTab)
     && negb (bool_decide (urlTab = Some (selectedTab st))) then
    (withTab st (default [] urlTab), location)
  else if filled (Some (selectedTab st))
          && negb (bool_decide (urlTab = Some (selectedTab st))) then
    (st, set location (lit "tab") (selectedTab st))
  else (st, location).

(** The effect that runs once on mount. *)
Definition mountEffect (st : State) (location : Params) : State :=
  let urlSearchTerm := get location (lit "search") in
  let urlTab := get location (lit "tab") in
  let st :=
    if filled urlSearchTerm then withSearchTerm st (default [] urlSearchTerm)
    else st in
  if filled urlTab && isTab (default [] urlTab)
  then withTab st (default [] urlTab) else st.

End Effects.

End RecipeContext.

(** ** Vocabulary of the properties *)

Module Spec.
Import JS Http RecipeApi.

(** [sub] occurs in [s]. *)
Definition contains (s sub : jsstring) : Prop :=
  exists before after, s = before ++ sub ++ after.

(** Only white space (in particular, empty). *)
Definition blank (s : jsstring) : bool := forallb isWhiteSpace s.

(** A query parameter that is absent, empty or only white space. *)
Definition missing (v : option QueryValue) : Prop :=
  v = None \/ exists s, v = Some (QStr s) /\ blank s = true.

(** A non-empty string of decimal digits. *)
Definition digitsOnly (s : jsstring) : Prop :=
  s <> [] /\ forallb isDigit s = true.

(** The [recipeId] parameter is present and reads as a non-empty string
    of digits. *)
Definition validRecipeId (request : Request) : Prop :=
  exists v, query request !! lit "recipeId" = Some v /\ digitsOnly (toString v).

(** The first segment of the catch-all path, when there is one. *)
Definition firstSegment (request : Request) : option jsstring :=
  match query request !! lit "action" with
  | Some (QArr (segment :: _)) => Some segment
  | _ => None
  end.

(** The same request with another catch-all path. *)
Definition withPath (request : Request) (path : list jsstring) : Request :=
  {| method := method request;
     query := <[lit "action" := QArr path]> (query request) |}.

Definition isGet (request : Request) : Prop :=
  method request = Some (lit "GET").

(** The outcome of a handler: a response with status [code] and body
    [{ error: text }], and no upstream call. *)
Definition rejects (out : Response * list ApiCall) (code : Z) (text : string)
    : Prop :=
  statusCode out.1 = code /\ body out.1 = Some (errorBody text) /\ out.2 = [].

(** The outcome of a handler: exactly the upstream call [c], answered
    with status 200 and the results whenever [c] returns some. *)
Definition forwards (upstream : ApiCall -> Json + Thrown)
    (out : Response * list ApiCall) (c : ApiCall) : Prop :=
  out.2 = [c] /\
  forall results, upstream c = inl results ->
    statusCode out.1 = 200%Z /\ body out.1 = Some results.

(** The outcome of a handler when the upstream call threw an [Error]
    with that message: 402 exactly when the message contains "limit" or
    "402", 500 otherwise, and the body [{ error: text, message }]. *)
Definition reportsError (out : Response * list ApiCall) (text : string)
    (message : jsstring) : Prop :=
  (statusCode out.1 = 402%Z <->
     contains message (lit "limit") \/ contains message (lit "402")) /\
  (statusCode out.1 <> 402%Z -> statusCode out.1 = 500%Z) /\
  body out.1 = Some (JObject [(lit "error", JString (lit text));
                              (lit "message", JString message)]).

(** The number a request to the [similar] route asks for: 10 when the
    [number] parameter is absent or empty, what [parseInt(_, 10)] reads
    of it otherwise. *)
Definition requestedNumber (request : Request) : jsnumber :=
  match query request !! lit "number" with
  | None | Some (QStr []) => of_Z 10
  | Some v => parseInt10 (toString v)
  end.

(** A run of a [try] block that makes no upstream call, or exactly one
    whose outcome decides how the block ends. *)
Definition singleCall (upstream : ApiCall -> Json + Thrown)
    (response : Response) (run : Comp Response) : Prop :=
  run.1 = [] \/
  exists c, run.1 = [c] /\
    run.2 = match upstream c with
            | inl results => inl (json (status response 200) results)
            | inr error => inr error
            end.

End Spec.

(** ** Vocabulary of the properties of every request *)

Module Safety.
Import JS Http RecipeApi Spec.

(** The statuses a handler sets itself. *)
Definition knownStatus (code : Z) : Prop :=
  In code [200; 400; 402; 404; 405; 500]%Z.

(** A number the [similar] route lets through. *)
Definition acceptedNumber (n : jsnumber) : Prop :=
  isNaN n = false /\ num_lt n (of_Z 1) = false /\ num_lt (of_Z 100) n = false.

(** A price the [pairing] route lets through. *)
Definition acceptedPrice (p : option jsnumber) : Prop :=
  match p with
  | Some x => isNaN x = false /\ num_lt x (of_Z 0) = false
  | None => True
  end.

(** A parameter that is a string and not blank. *)
Definition filledText (v : option QueryValue) : Prop :=
  exists s, v = Some (QStr s) /\ blank s = false.

(** The arguments of an upstream call have passed the checks of its
    route. *)
Definition sanitised (c : ApiCall) : Prop :=
  match c with
  | getDishPairingForWine wine => filledText wine
  | getWinePairing food maxPrice => filledText food /\ acceptedPrice maxPrice
  | getRecipeInformation recipeId _ => digitsOnly (toString recipeId)
  | getSimilarRecipes recipeId number =>
      digitsOnly (toString recipeId) /\ acceptedNumber number
  | getRecipeSummary recipeId => digitsOnly (toString recipeId)
  end.

(** The calls of the food/wine API. *)
Definition aboutWine (c : ApiCall) : bool :=
  match c with
  | getDishPairingForWine _ | getWinePairing _ _ => true
  | _ => false
  end.

(** How a [try] block can end: with a 400 or 404 it sets itself, with
    something thrown before any call, or with one call, whose
    arguments satisfy [P], deciding the outcome. *)
Definition routeOutcome (P : ApiCall -> Prop)
    (upstream : ApiCall -> Json + Thrown) (response : Response)
    (run : Comp Response) : Prop :=
  (exists code text, (code = 400 \/ code = 404)%Z /\
     run = ([], inl (json (status response code) (errorBody text)))) \/
  (exists error, run = ([], inr error)) \/
  (exists c, P c /\
     run = ([c], match upstream c with
                 | inl results => inl (json (status response 200) results)
                 | inr error => inr error
                 end)).

(** What a handler leaves after the [catch] block ran on an [Error]
    with that message, thrown before any call: 500 and the body
    [{ error: text, message }]. *)
Definition failsWith (out : Response * list ApiCall) (text : string)
    (message : jsstring) : Prop :=
  statusCode out.1 = 500%Z /\ out.2 = [] /\
  body out.1 = Some (JObject [(lit "error", JString (lit text));
                              (lit "message", JString message)]).

(** A string before which a run of digits ends. *)
Definition endsDigits (t : jsstring) : Prop :=
  match t with
  | c :: _ => isDigit c = false
  | [] => True
  end.

(** What holds of every answer a handler gives itself. *)
Definition wellBehaved (P : ApiCall -> Prop)
    (upstream : ApiCall -> Json + Thrown) (out : Response * list ApiCall)
    : Prop :=
  knownStatus (statusCode out.1) /\
  is_Some (body out.1) /\
  length out.2 <= 1 /\
  (forall c, In c out.2 -> P c) /\
  (statusCode out.1 = 200%Z ->
   exists c results,
     out.2 = [c] /\ upstream c = inl results /\ body out.1 = Some results).

End Safety.

(** ** Sample requests and sample instances of the imported helpers *)

Module Samples.
Import JS Http RecipeApi.
Local Open Scope string_scope.

(** A preflight helper that answers [OPTIONS] requests. *)
Definition answerOptions (request : Request) (response : Response)
    : bool * Response :=
  if bool_decide (method request = Some (lit "OPTIONS"))
  then (true, status response 200%Z)
  else (false, response).

Definition allowAnyOrigin (response : Response) : Response :=
  {| statusCode := statusCode response;
     headers := (lit "Access-Control-Allow-Origin", lit "*") :: headers response;
     body := body response |}.

(** An upstream that returns an empty result list. *)
Definition emptyResults (c : ApiCall) : Json + Thrown := inl (JArray []).

(** An upstream that is over its quota. *)
Definition overQuota (c : ApiCall) : Json + Thrown :=
  inr (ThrownError (lit "API limit reached")).

Definition fresh : Response :=
  {| statusCode := 200%Z; headers := []; body := None |}.

Definition req (verb : string) (params : list (string * QueryValue)) : Request :=
  {| method := Some (lit verb);
     query := list_to_map (prod_map lit id <$> params) |}.

Definition str (s : string) : QueryValue := QStr (lit s).
Definition path (segments : list string) : QueryValue := QArr (lit <$> segments).

(** [POST /api/recipes/abc/summary] and [POST /api/recipes/716429/summary] *)
Definition postBadId : Request :=
  req "POST" [("recipeId", str "abc"); ("action", path ["summary"])].
Definition postGoodId : Request :=
  req "POST" [("recipeId", str "716429"); ("action", path ["summary"])].

(** [GET /api/recipes/abc/unknown] and [GET /api/recipes/716429/unknown] *)
Definition getUnknownBadId : Request :=
  req "GET" [("recipeId", str "abc"); ("action", path ["unknown"])].
Definition getUnknown : Request :=
  req "GET" [("recipeId", str "716429"); ("action", path ["unknown"])].

(** [GET /api/recipes/716429/summary] *)
Definition getSummary : Request :=
  req "GET" [("recipeId", str "716429"); ("action", path ["summary"])].

(** [GET /api/recipes/716429/information/extra?includeNutrition=true&addTasteData=1] *)
Definition getInformation : Request :=
  req "GET" [("recipeId", str "716429"); ("action", path ["information"; "extra"]);
             ("includeNutrition", str "true"); ("addTasteData", str "1")].

(** [GET /api/recipes/716429/similar?number=0] *)
Definition similarZero : Request :=
  req "GET" [("recipeId", str "716429"); ("action", path ["similar"]);
             ("number", str "0")].

(** [GET /api/recipes/716429/similar?number=] and [...?number=5] *)
Definition similarEmptyNumber : Request :=
  req "GET" [("recipeId", str "716429"); ("action", path ["similar"]);
             ("number", str "")].
Definition similarFive : Request :=
  req "GET" [("recipeId", str "716429"); ("action", path ["similar"]);
             ("number", str "5")].

(** [GET /api/food/wine/pairing?food=%20%20] and [GET /api/food/wine/dishes] *)
Definition pairingBlankFood : Request :=
  req "GET" [("action", path ["pairing"]); ("food", str "  ")].
Definition dishesNoWine : Request :=
  req "GET" [("action", path ["dishes"])].

(** [GET /api/food/wine/pairing?food=steak&maxPrice=], [...&maxPrice=0]
    and [GET /api/food/wine/pairing?food=%20&maxPrice=5] *)
Definition pairingEmptyPrice : Request :=
  req "GET" [("action", path ["pairing"]); ("food", str "steak");
             ("maxPrice", str "")].
Definition pairingZeroPrice : Request :=
  req "GET" [("action", path ["pairing"]); ("food", str "steak");
             ("maxPrice", str "0")].
Definition pairingBlankFoodPrice : Request :=
  req "GET" [("action", path ["pairing"]); ("food", str " ");
             ("maxPrice", str "5")].

(** [GET /api/food/wine/dishes?wine=merlot] and [...?wine=a&wine=b] *)
Definition dishesMerlot : Request :=
  req "GET" [("action", path ["dishes"]); ("wine", str "merlot")].
Definition dishesTwoWines : Request :=
  req "GET" [("action", path ["dishes"]); ("wine", path ["a"; "b"])].

(** [OPTIONS /api/recipes/abc/summary] *)
Definition optionsBadId : Request :=
  req "OPTIONS" [("recipeId", str "abc"); ("action", path ["summary"])].

(** [OPTIONS /api/recipes/716429/summary] *)
Definition optionsSummary : Request :=
  req "OPTIONS" [("recipeId", str "716429"); ("action", path ["summary"])].

(** [GET /api/recipes/716429/similar?number=07px] *)
Definition similarSevenPx : Request :=
  req "GET" [("recipeId", str "716429"); ("action", path ["similar"]);
             ("number", str "07px")].

(** A response that is not [ok]. *)
Definition paymentRequired : ApiClient.FetchResponse :=
  {| ApiClient.ok := false; ApiClient.status := 402%N;
     ApiClient.parsed := inl JNull |}.

Definition fetchPaymentRequired (r : ApiClient.Resource)
    : ApiClient.FetchResponse + Thrown :=
  inl paymentRequired.

Definition pasta : ApiClient.Recipe :=
  {| ApiClient.id := of_Z 716429; ApiClient.title := lit "pasta";
     ApiClient.image := []; ApiClient.imageType := lit "jpg" |}.

(** An [id.toString()] that suits the sample recipe. *)
Definition sampleIdToString (n : jsnumber) : jsstring := lit "716429".

End Samples.

(** ** Facts about the JavaScript fragment *)

Section JSFacts.
Import JS Http Spec.

Lemma startsWith_spec (s p : jsstring) :
  startsWith s p = true <-> exists after, s = p ++ after.
Proof.
  revert s; induction p as [|a p IH]; intros s; simpl.
  - split; [intros _; exists s|]; reflexivity.
  - destruct s as [|b s]; simpl.
    + split; [discriminate | intros [? ?]; discriminate].
    + rewrite andb_true_iff, N.eqb_eq, IH. split.
      * intros [-> [after ->]]. eauto.
      * intros [after [= -> ->]]. eauto.
Qed.

Lemma includes_spec (s sub : jsstring) :
  includes s sub = true <-> contains s sub.
Proof.
  unfold contains. induction s as [|c s IH]; simpl.
  - rewrite orb_false_r, startsWith_spec. split.
    + intros [after ->]. exists [], after. reflexivity.
    + intros (before & after & H). symmetry in H.
      apply app_eq_nil in H as [-> H]. eauto.
  - rewrite orb_true_iff, startsWith_spec, IH. split.
    + intros [[after ->] | (before & after & ->)].
      * exists [], after. reflexivity.
      * exists (c :: before), after. reflexivity.
    + intros ([|b before] & after & H); simpl in H.
      * left. eauto.
      * right. injection H as -> ->. eauto.
Qed.

Lemma trimStart_nil (s : jsstring) : trimStart s = [] <-> blank s = true.
Proof.
  unfold blank. induction s as [|c s IH]; simpl; [tauto|].
  destruct (isWhiteSpace c); simpl; [exact IH|].
  split; discriminate.
Qed.

Lemma blank_rev (s : jsstring) : blank (rev s) = blank s.
Proof.
  unfold blank. induction s as [|c s IH]; simpl; [reflexivity|].
  rewrite forallb_app, IH. simpl. rewrite andb_true_r. apply andb_comm.
Qed.

(** What is left of a string after [trimStart] is empty or starts with
    a code unit that is not white space. *)
Lemma trimStart_blank (s : jsstring) :
  blank (trimStart s) = true -> trimStart s = [].
Proof.
  induction s as [|c s IH]; simpl; [reflexivity|].
  destruct (isWhiteSpace c) eqn:E; [exact IH|].
  unfold blank; simpl. rewrite E. discriminate.
Qed.

Lemma trim_blank (s : jsstring) : length (trim s) = 0 <-> blank s = true.
Proof.
  unfold trim, trimEnd. rewrite length_rev, length_zero_iff_nil, trimStart_nil.
  rewrite blank_rev. split.
  - intros H. apply trimStart_nil, trimStart_blank, H.
  - intros H. apply trimStart_nil in H. rewrite H. reflexivity.
Qed.

Lemma allDigits_spec (v : QueryValue) :
  RecipeDetail.allDigits v = true <-> digitsOnly (toString v).
Proof.
  unfold RecipeDetail.allDigits, digitsOnly.
  destruct (toString v) as [|c s].
  - split; [discriminate | intros [H _]; contradiction].
  - split; [intros H; split; [discriminate | exact H] | intros [_ H]; exact H].
Qed.

End JSFacts.

(** ** The request handlers *)

Section Handlers.
Import JS Http RecipeApi Spec Safety.

Variable handleCorsPreflight : Request -> Response -> bool * Response.
Variable setCorsHeaders : Response -> Response.
Variable upstream : ApiCall -> Json + Thrown.

Local Abbreviation foodWine :=
  (FoodWine.handler handleCorsPreflight setCorsHeaders upstream).
Local Abbreviation recipeDetail :=
  (RecipeDetail.handler handleCorsPreflight setCorsHeaders upstream).

(** [path[0]] is the first segment of the catch-all path when there is
    one; otherwise it is undefined or a single code unit. *)
Lemma action_segment request segment :
  firstSegment request = Some segment ->
  index0 (or_else (query request !! lit "action") (QArr [])) = Some segment.
Proof.
  unfold firstSegment.
  destruct (query request !! lit "action") as [[s|[|x l]]|];
    try discriminate.
  intros [= ->]. reflexivity.
Qed.

Lemma action_other request (w : jsstring) :
  firstSegment request <> Some w -> 2 <= length w ->
  index0 (or_else (query request !! lit "action") (QArr [])) <> Some w.
Proof.
  unfold firstSegment.
  destruct (query request !! lit "action") as [[[|c s]|[|x l]]|];
    simpl; intros Hne Hlen; try discriminate; try exact Hne.
  intros [= <-]. simpl in Hlen. lia.
Qed.

(** The check [!recipeId || !/^\d+$/.test(recipeId)] fails exactly on
    the valid identifiers. *)
Lemma recipeId_check request :
  negb (truthy (Some (or_else (query request !! lit "recipeId") (QStr []))))
  || negb (RecipeDetail.allDigits
             (or_else (query request !! lit "recipeId") (QStr []))) = false
  <-> validRecipeId request.
Proof.
  unfold validRecipeId.
  rewrite <- negb_andb, negb_false_iff, andb_true_iff, allDigits_spec.
  destruct (query request !! lit "recipeId") as [[[|c s]|l]|]; simpl.
  - split; [intros [? _]; discriminate |].
    intros (? & [= <-] & [D _]). contradiction.
  - split; [intros [_ D]; eauto | intros (? & [= <-] & D); auto].
  - split; [intros [_ D]; eauto | intros (? & [= <-] & D); auto].
  - split; [intros [? _]; discriminate | intros (? & ? & _); discriminate].
Qed.

Ltac past_preflight H :=
  unfold FoodWine.handler, RecipeDetail.handler;
  destruct (handleCorsPreflight _ _) as [answered response'];
  simpl in H; subst answered; cbv zeta.

(** C9, amended: a request to the recipe-detail handler that is not
    answered as a preflight and whose [recipeId] is absent, empty or not made of
    digits only gets 400 [{ error: "Valid recipe ID is required" }]
    without any upstream call, whatever its method: the identifier is
    checked before the method. *)
Theorem recipe_id_checked_first request response :
  (handleCorsPreflight request response).1 = false ->
  ~ validRecipeId request ->
  rejects (recipeDetail request response) 400 "Valid recipe ID is required".
Proof.
  intros Hpre Hid. past_preflight Hpre.
  rewrite <- recipeId_check in Hid.
  apply not_false_is_true in Hid. rewrite Hid.
  repeat split.
Qed.

(** C1, amended: a request that is not answered as a preflight and
    whose method is not GET gets 405 [{ error: "Method not allowed" }]
    without any upstream call from the food/wine handler, and from the
    recipe-detail handler when its [recipeId] is valid. *)
Theorem method_not_allowed request response :
  ~ isGet request ->
  (handleCorsPreflight request response).1 = false ->
  rejects (foodWine request response) 405 "Method not allowed" /\
  (validRecipeId request ->
   rejects (recipeDetail request response) 405 "Method not allowed").
Proof.
  intros Hget Hpre. unfold isGet in Hget. split.
  - past_preflight Hpre.
    rewrite bool_decide_eq_false_2 by exact Hget. repeat split.
  - intros Hid. past_preflight Hpre.
    apply recipeId_check in Hid. rewrite Hid.
    rewrite bool_decide_eq_false_2 by exact Hget. repeat split.
Qed.

(** C5, amended: a GET request that is not answered as a preflight and
    whose first path segment is not a handled action gets 404
    [{ error: "Not found" }] without any upstream call from the
    food/wine handler, and from the recipe-detail handler when its
    [recipeId] is valid. *)
Theorem unknown_action request response :
  isGet request ->
  (handleCorsPreflight request response).1 = false ->
  (firstSegment request <> Some (lit "dishes") ->
   firstSegment request <> Some (lit "pairing") ->
   rejects (foodWine request response) 404 "Not found") /\
  (validRecipeId request ->
   firstSegment request <> Some (lit "information") ->
   firstSegment request <> Some (lit "similar") ->
   firstSegment request <> Some (lit "summary") ->
   rejects (recipeDetail request response) 404 "Not found").
Proof.
  intros Hget Hpre. unfold isGet in Hget. split.
  - intros H1 H2. past_preflight Hpre.
    rewrite bool_decide_eq_true_2 by exact Hget. simpl.
    unfold FoodWine.route.
    rewrite !bool_decide_eq_false_2
      by (apply action_other; [assumption | simpl; lia]).
    repeat split.
  - intros Hid H1 H2 H3. past_preflight Hpre.
    apply recipeId_check in Hid. rewrite Hid.
    rewrite bool_decide_eq_true_2 by exact Hget. simpl.
    unfold RecipeDetail.route.
    rewrite !bool_decide_eq_false_2
      by (apply action_other; [assumption | simpl; lia]).
    repeat split.
Qed.

Lemma bind_ret {A B} (a : A) (k : A -> Comp B) : bind ([], inl a) k = k a.
Proof. unfold bind. destruct (k a). reflexivity. Qed.

(** [!value || value.trim().length === 0] on a missing parameter, and
    on a string that is not blank. *)
Lemma isBlank_missing name v : missing v -> isBlank name v = ret true.
Proof.
  intros [-> | (s & -> & Hs)]; [reflexivity|].
  destruct s as [|c s]; [reflexivity|].
  unfold isBlank; simpl. unfold ret. do 3 f_equal.
  apply Nat.eqb_eq, trim_blank, Hs.
Qed.

Lemma isBlank_present name s :
  blank s = false -> isBlank name (Some (QStr s)) = ret false.
Proof.
  intros Hs. destruct s as [|c s]; [discriminate|].
  unfold isBlank; simpl. unfold ret. do 3 f_equal.
  apply Nat.eqb_neq. rewrite trim_blank, Hs. discriminate.
Qed.

Lemma isBlank_calls name v : (isBlank name v).1 = [].
Proof.
  unfold isBlank. destruct (truthy v); [|reflexivity].
  destruct v as [[s|l]|]; reflexivity.
Qed.

(** C4: on a GET request that is not answered as a preflight, the
    food/wine handler answers 400 [{ error: "Food name is required" }]
    on the [pairing] route when [food] is absent, empty or only white
    space, and 400 [{ error: "Wine type is required" }] on the [dishes]
    route when [wine] is; it makes no upstream call. *)
Theorem required_parameter request response :
  isGet request ->
  (handleCorsPreflight request response).1 = false ->
  (firstSegment request = Some (lit "pairing") ->
   missing (query request !! lit "food") ->
   rejects (foodWine request response) 400 "Food name is required") /\
  (firstSegment request = Some (lit "dishes") ->
   missing (query request !! lit "wine") ->
   rejects (foodWine request response) 400 "Wine type is required").
Proof.
  intros Hget Hpre. unfold isGet in Hget.
  split; intros Hseg Hmiss; past_preflight Hpre;
    rewrite bool_decide_eq_true_2 by exact Hget; simpl;
    rewrite (action_segment _ _ Hseg); unfold FoodWine.route.
  - rewrite bool_decide_eq_false_2 by discriminate.
    rewrite bool_decide_eq_true_2 by reflexivity.
    rewrite (isBlank_missing _ _ Hmiss). repeat split.
  - rewrite bool_decide_eq_true_2 by reflexivity.
    rewrite (isBlank_missing _ _ Hmiss). repeat split.
Qed.

Lemma await_single response c :
  singleCall upstream response
    (do results <- await upstream c; ret (json (status response 200) results)).
Proof.
  right. exists c. unfold await, bind; simpl.
  destruct (upstream c); split; reflexivity.
Qed.

Lemma foodWine_single request response action :
  singleCall upstream response (FoodWine.route upstream request response action).
Proof.
  unfold FoodWine.route.
  repeat case_bool_decide.
  - pose proof (isBlank_calls "wine" (query request !! lit "wine")) as Hc.
    destruct (isBlank "wine" _) as [calls [[|]|t]]; simpl in Hc; subst calls;
      try (left; reflexivity).
    rewrite bind_ret. apply await_single.
  - pose proof (isBlank_calls "food" (query request !! lit "food")) as Hc.
    destruct (isBlank "food" _) as [calls [[|]|t]]; simpl in Hc; subst calls;
      try (left; reflexivity).
    rewrite bind_ret. destruct (match _ with Some _ => _ | None => false end);
      [left; reflexivity | apply await_single].
  - left; reflexivity.
Qed.

Lemma recipeDetail_single request response recipeId action :
  singleCall upstream response
    (RecipeDetail.route upstream request response recipeId action).
Proof.
  unfold RecipeDetail.route.
  repeat case_bool_decide; try apply await_single; try (left; reflexivity).
  destruct (_ || _); [left; reflexivity | apply await_single].
Qed.

Lemma statusCodeOf_spec errorMessage :
  (statusCodeOf errorMessage = 402%Z <->
     contains errorMessage (lit "limit") \/ contains errorMessage (lit "402")) /\
  (statusCodeOf errorMessage <> 402%Z -> statusCodeOf errorMessage = 500%Z).
Proof.
  unfold statusCodeOf. rewrite <- !includes_spec, <- orb_true_iff.
  destruct (_ || _); split; try tauto; try congruence.
  split; [discriminate | intros [=]].
Qed.

(** C2: when the upstream call made by a handler throws an [Error],
    the handler answers 402 exactly when the message of that error
    contains "limit" or "402", and 500 otherwise; the body has the
    [error] field of the handler and a [message] field that carries
    the message of the error. *)
Theorem upstream_failure request response c (message : jsstring) :
  upstream c = inr (ThrownError message) ->
  ((foodWine request response).2 = [c] ->
   reportsError (foodWine request response)
     "Failed to process request" message) /\
  ((recipeDetail request response).2 = [c] ->
   reportsError (recipeDetail request response)
     "Failed to fetch recipe data" message).
Proof.
  intros Hthrow. split.
  - unfold FoodWine.handler.
    destruct (handleCorsPreflight _ _) as [[|] response']; [discriminate|].
    destruct (negb _); [discriminate|]. cbv zeta.
    destruct (foodWine_single request (setCorsHeaders response')
                (index0 (or_else (query request !! lit "action") (QArr []))))
      as [Hc | (c' & Hc & Hr)];
      destruct (FoodWine.route _ _ _ _) as [calls r]; simpl in *; subst calls.
    + destruct r; discriminate.
    + intros Heq. assert (c' = c) as -> by (destruct r; simpl in Heq; congruence).
      rewrite Hthrow in Hr. subst r. unfold reportsError; simpl.
      pose proof (statusCodeOf_spec message) as [H1 H2].
      split; [exact H1|]. split; [exact H2 | reflexivity].
  - unfold RecipeDetail.handler.
    destruct (handleCorsPreflight _ _) as [[|] response']; [discriminate|].
    cbv zeta. destruct (_ || _); [discriminate|].
    destruct (negb _); [discriminate|].
    destruct (recipeDetail_single request (setCorsHeaders response')
                (or_else (query request !! lit "recipeId") (QStr []))
                (index0 (or_else (query request !! lit "action") (QArr []))))
      as [Hc | (c' & Hc & Hr)];
      destruct (RecipeDetail.route _ _ _ _ _) as [calls r]; simpl in *;
      subst calls.
    + destruct r; discriminate.
    + intros Heq. assert (c' = c) as -> by (destruct r; simpl in Heq; congruence).
      rewrite Hthrow in Hr. subst r. unfold reportsError; simpl.
      pose proof (statusCodeOf_spec message) as [H1 H2].
      split; [exact H1|]. split; [exact H2 | reflexivity].
Qed.

Lemma strict_eq_spec v s : strict_eq v s = true <-> v = Some (QStr s).
Proof.
  destruct v as [[t|l]|]; simpl; try (split; discriminate).
  rewrite bool_decide_eq_true. split; congruence.
Qed.

(** [value || ""] is [value] itself when it is defined. *)
Lemma or_else_empty (value : QueryValue) :
  or_else (Some value) (QStr []) = value.
Proof. destruct value as [[|c s]|l]; reflexivity. Qed.

(** Finishing a handler after a [try] block that awaits [c]. *)
Lemma forwards_await (response : Response) (fallback : Thrown -> Response) c :
  forwards upstream
    match (do results <- await upstream c;
           ret (json (status response 200) results)) with
    | (calls, inl response') => (response', calls)
    | (calls, inr error) => (fallback error, calls)
    end c.
Proof.
  unfold forwards, await, bind; simpl.
  destruct (upstream c) as [results|error]; simpl; split; try reflexivity.
  - intros ? [= <-]. split; reflexivity.
  - discriminate.
Qed.

Lemma lookup_withPath request path (key : jsstring) :
  key <> lit "action" ->
  query (withPath request path) !! key = query request !! key.
Proof. intros Hne. simpl. apply lookup_insert_ne. congruence. Qed.

(** The [try] block of the recipe-detail handler reads the path only
    through [action]. *)
Lemma recipeDetail_route_withPath request path response recipeId action :
  RecipeDetail.route upstream (withPath request path) response recipeId action
  = RecipeDetail.route upstream request response recipeId action.
Proof.
  unfold RecipeDetail.route.
  rewrite !lookup_withPath by (cbv; discriminate). reflexivity.
Qed.

(** The recipe-detail handler past its three guards. *)
Lemma recipeDetail_routed request response recipeId segment :
  isGet request ->
  query request !! lit "recipeId" = Some recipeId ->
  digitsOnly (toString recipeId) ->
  firstSegment request = Some segment ->
  recipeDetail request response =
    let '(answered, response') := handleCorsPreflight request response in
    if answered then (response', [])
    else
      match RecipeDetail.route upstream request (setCorsHeaders response')
              recipeId (Some segment) with
      | (calls, inl response'') => (response'', calls)
      | (calls, inr error) =>
          (RecipeDetail.recover (setCorsHeaders response') error, calls)
      end.
Proof.
  intros Hget Hq Hid Hseg. unfold RecipeDetail.handler, isGet in *.
  destruct (handleCorsPreflight _ _) as [[|] response']; [reflexivity|].
  cbv zeta.
  rewrite (proj2 (recipeId_check request)) by (exists recipeId; auto).
  rewrite bool_decide_eq_true_2 by exact Hget.
  rewrite (action_segment _ _ Hseg), Hq, or_else_empty.
  reflexivity.
Qed.

(** What the [similar] route reads of the [number] parameter. *)
Lemma requestedNumber_read request :
  match query request !! lit "number" with
  | Some v => if truthy (Some v) then parseInt10 (toString v) else of_Z 10
  | None => of_Z 10
  end = requestedNumber request.
Proof.
  unfold requestedNumber.
  destruct (query request !! lit "number") as [[[|c s]|l]|]; reflexivity.
Qed.

(** C3, amended: on a GET request with a digits-only [recipeId] that is
    not answered as a preflight, the recipe-detail handler dispatches
    on the first path segment alone.  [information] calls
    [getRecipeInformation(recipeId, options)], each option being true
    exactly when its query parameter is the string "true"; [similar]
    calls [getSimilarRecipes(recipeId, number)], the number being 10
    for an absent or empty parameter and what [parseInt(_, 10)] reads
    otherwise, when that number is neither NaN, below 1 nor above 100,
    and answers 400 [{ error: "Number must be between 1 and 100" }]
    without a call when it is; [summary] calls
    [getRecipeSummary(recipeId)].  The answer is 200 with the results
    of the call when the call returns some.  The segments after the
    first play no part. *)
Theorem dispatch_on_first_segment request response recipeId segment :
  isGet request ->
  (handleCorsPreflight request response).1 = false ->
  query request !! lit "recipeId" = Some recipeId ->
  digitsOnly (toString recipeId) ->
  firstSegment request = Some segment ->
  let out := recipeDetail request response in
  (segment = lit "information" ->
   exists options,
     forwards upstream out (getRecipeInformation recipeId options) /\
     (includeNutrition options = true <->
        query request !! lit "includeNutrition" = Some (QStr (lit "true"))) /\
     (addWinePairing options = true <->
        query request !! lit "addWinePairing" = Some (QStr (lit "true"))) /\
     (addTasteData options = true <->
        query request !! lit "addTasteData" = Some (QStr (lit "true")))) /\
  (segment = lit "similar" ->
   (acceptedNumber (requestedNumber request) ->
    forwards upstream out
      (getSimilarRecipes recipeId (requestedNumber request))) /\
   (~ acceptedNumber (requestedNumber request) ->
    rejects out 400 "Number must be between 1 and 100")) /\
  (segment = lit "summary" ->
   forwards upstream out (getRecipeSummary recipeId)) /\
  (forall rest,
     handleCorsPreflight (withPath request (segment :: rest)) response
       = handleCorsPreflight request response ->
     recipeDetail (withPath request (segment :: rest)) response = out).
Proof.
  intros Hget Hpre Hq Hid Hseg out. subst out.
  rewrite (recipeDetail_routed _ _ _ _ Hget Hq Hid Hseg).
  split; [|split; [|split]].
  - intros ->. destruct (handleCorsPreflight _ _) as [answered response'].
    simpl in Hpre; subst answered. unfold RecipeDetail.route.
    rewrite bool_decide_eq_true_2 by reflexivity.
    eexists. split; [apply forwards_await|].
    simpl. rewrite !strict_eq_spec. tauto.
  - intros ->. destruct (handleCorsPreflight _ _) as [answered response'].
    simpl in Hpre; subst answered. unfold RecipeDetail.route.
    rewrite bool_decide_eq_false_2 by discriminate.
    rewrite bool_decide_eq_true_2 by reflexivity.
    rewrite requestedNumber_read.
    destruct (isNaN (requestedNumber request)
              || num_lt (requestedNumber request) (of_Z 1)
              || num_lt (of_Z 100) (requestedNumber request)) eqn:Hbad.
    + split; [|intros _; repeat split].
      intros (H1 & H2 & H3). rewrite H1, H2, H3 in Hbad. discriminate.
    + apply orb_false_iff in Hbad as [Hbad H3].
      apply orb_false_iff in Hbad as [H1 H2].
      split; [intros _; apply forwards_await|].
      intros Hno. destruct Hno. repeat split; assumption.
  - intros ->. destruct (handleCorsPreflight _ _) as [answered response'].
    simpl in Hpre; subst answered. unfold RecipeDetail.route.
    rewrite !bool_decide_eq_false_2 by discriminate.
    rewrite bool_decide_eq_true_2 by reflexivity.
    apply forwards_await.
  - intros rest Hsame.
    rewrite (recipeDetail_routed (withPath request (segment :: rest)) response
               recipeId segment); try assumption.
    + rewrite Hsame.
      destruct (handleCorsPreflight _ _) as [answered response'].
      rewrite recipeDetail_route_withPath. reflexivity.
    + rewrite lookup_withPath by (cbv; discriminate). exact Hq.
    + unfold firstSegment. simpl. rewrite lookup_insert_eq. reflexivity.
Qed.

(** C6, amended: on a GET request to the [pairing] route that is not
    answered as a preflight and whose [food] is a string that is not
    blank, an absent or empty [maxPrice] is passed on as [undefined];
    any other [maxPrice] is read with [parseFloat], refused with 400
    [{ error: "maxPrice must be a positive number" }] when the result is
    NaN or below zero, and passed on to [getWinePairing(food, maxPrice)]
    otherwise. *)
Theorem wine_pairing_max_price request response food :
  isGet request ->
  (handleCorsPreflight request response).1 = false ->
  firstSegment request = Some (lit "pairing") ->
  query request !! lit "food" = Some (QStr food) ->
  blank food = false ->
  let out := foodWine request response in
  (query request !! lit "maxPrice" = None \/
   query request !! lit "maxPrice" = Some (QStr []) ->
   forwards upstream out (getWinePairing (Some (QStr food)) None)) /\
  (forall v,
     query request !! lit "maxPrice" = Some v -> v <> QStr [] ->
     let price := parseFloat (toString v) in
     (isNaN price = true \/ num_lt price (of_Z 0) = true ->
      rejects out 400 "maxPrice must be a positive number") /\
     (isNaN price = false -> num_lt price (of_Z 0) = false ->
      forwards upstream out (getWinePairing (Some (QStr food)) (Some price)))).
Proof.
  intros Hget Hpre Hseg Hfood Hblank out. subst out. unfold isGet in Hget.
  past_preflight Hpre.
  rewrite bool_decide_eq_true_2 by exact Hget. simpl negb. cbv iota.
  rewrite (action_segment _ _ Hseg). unfold FoodWine.route.
  rewrite bool_decide_eq_false_2 by discriminate.
  rewrite bool_decide_eq_true_2 by reflexivity.
  rewrite Hfood, (isBlank_present _ _ Hblank), (bind_ret false).
  split.
  - intros [-> | ->]; apply forwards_await.
  - intros v -> Hv.
    assert (truthy (Some v) = true) as ->
      by (destruct v as [[|? ?]|]; [contradiction | reflexivity ..]).
    simpl fmap. split.
    + intros Hbad. apply orb_true_iff in Hbad. rewrite Hbad. repeat split.
    + intros -> ->. apply forwards_await.
Qed.

(** C7, amended: on a GET request to the [similar] route with a
    digits-only [recipeId] that is not answered as a preflight, an
    absent or empty [number] stands for 10; any other [number] is read
    with [parseInt(_, 10)], refused with 400
    [{ error: "Number must be between 1 and 100" }] when the result is
    NaN, below 1 or above 100, and passed on to
    [getSimilarRecipes(recipeId, number)] otherwise. *)
Theorem similar_number request response recipeId :
  isGet request ->
  (handleCorsPreflight request response).1 = false ->
  query request !! lit "recipeId" = Some recipeId ->
  digitsOnly (toString recipeId) ->
  firstSegment request = Some (lit "similar") ->
  let out := recipeDetail request response in
  (query request !! lit "number" = None \/
   query request !! lit "number" = Some (QStr []) ->
   forwards upstream out (getSimilarRecipes recipeId (of_Z 10))) /\
  (forall v,
     query request !! lit "number" = Some v -> v <> QStr [] ->
     let number := parseInt10 (toString v) in
     (isNaN number = true \/ num_lt number (of_Z 1) = true \/
      num_lt (of_Z 100) number = true ->
      rejects out 400 "Number must be between 1 and 100") /\
     (isNaN number = false -> num_lt number (of_Z 1) = false ->
      num_lt (of_Z 100) number = false ->
      forwards upstream out (getSimilarRecipes recipeId number))).
Proof.
  intros Hget Hpre Hq Hid Hseg out. subst out.
  rewrite (recipeDetail_routed _ _ _ _ Hget Hq Hid Hseg).
  destruct (handleCorsPreflight _ _) as [answered response'].
  simpl in Hpre; subst answered. unfold RecipeDetail.route.
  rewrite bool_decide_eq_false_2 by discriminate.
  rewrite bool_decide_eq_true_2 by reflexivity.
  split.
  - intros [-> | ->]; apply forwards_await.
  - intros v -> Hv. cbv zeta.
    assert (truthy (Some v) = true) as ->
      by (destruct v as [[|? ?]|]; [contradiction | reflexivity ..]).
    split.
    + intros Hbad. rewrite <- !orb_true_iff, orb_assoc in Hbad.
      rewrite Hbad. repeat split.
    + intros -> -> ->. apply forwards_await.
Qed.

End Handlers.

(** ** [capitalizeWords] *)

Section Capitalize.
Import JS StringUtils.

Lemma upperUnit_idem c : upperUnit (upperUnit c) = upperUnit c.
Proof.
  unfold upperUnit.
  destruct (97 <=? c)%N eqn:Hl, (c <=? 122)%N eqn:Hu; simpl;
    rewrite ?Hl, ?Hu; try reflexivity.
  apply N.leb_le in Hl, Hu.
  assert ((97 <=? c - 32)%N = false) as -> by (apply N.leb_gt; lia).
  reflexivity.
Qed.

(** Upper-casing keeps a code unit on its side of [\w]. *)
Lemma isWordChar_upperUnit c : isWordChar (upperUnit c) = isWordChar c.
Proof.
  unfold upperUnit.
  destruct (97 <=? c)%N eqn:Hl, (c <=? 122)%N eqn:Hu; simpl;
    try reflexivity.
  unfold isWordChar. rewrite Hl, Hu. simpl.
  apply N.leb_le in Hl, Hu.
  assert ((65 <=? c - 32)%N = true) as -> by (apply N.leb_le; lia).
  assert ((c - 32 <=? 90)%N = true) as -> by (apply N.leb_le; lia).
  simpl. rewrite !orb_true_r. reflexivity.
Qed.

Lemma replaceWordStarts_idem prevWord s :
  replaceWordStarts toUpperCase prevWord
    (replaceWordStarts toUpperCase prevWord s)
  = replaceWordStarts toUpperCase prevWord s.
Proof.
  revert prevWord; induction s as [|c s IH]; intros prevWord; simpl;
    [reflexivity|].
  destruct (isWordChar c && negb prevWord) eqn:E; simpl.
  - rewrite isWordChar_upperUnit, E, IH. simpl.
    rewrite upperUnit_idem. reflexivity.
  - rewrite E, IH. reflexivity.
Qed.

(** C10: [capitalizeWords] is idempotent, and gives the empty string
    on [undefined] and on the empty string. *)
Theorem capitalizeWords_idempotent :
  (forall str : option jsstring,
     capitalizeWords (Some (capitalizeWords str)) = capitalizeWords str) /\
  capitalizeWords None = [] /\
  capitalizeWords (Some []) = [].
Proof.
  split; [|split; reflexivity].
  intros [[|c s]|]; try reflexivity.
  unfold capitalizeWords at 2 3.
  change (fun char => toUpperCase char) with toUpperCase.
  remember (replaceWordStarts toUpperCase false (c :: s)) as t eqn:Ht.
  destruct t as [|d t]; [reflexivity|].
  unfold capitalizeWords.
  change (fun char => toUpperCase char) with toUpperCase.
  rewrite Ht. apply replaceWordStarts_idem.
Qed.

End Capitalize.

(** ** Retry configuration *)

Section Retry.
Import JS QueryConfig.

Lemma steady_single (n : nat) (wait : Z) : steady (repeat wait n).
Proof.
  intros a b Ha Hb. apply repeat_spec in Ha, Hb. congruence.
Qed.

(** C8: every configured query has a literal retry count and no delay
    function: the client default is 1 retry, [useSearchRecipes],
    [useFavouriteRecipes] and [useRecipeSummary] set 1 retry,
    [useWeatherSuggestions] sets 2 retries 1000 ms apart, and mutations
    default to 0 retries, which neither mutation hook overrides.  Under
    React Query's retryer, and whatever the library's default delay is,
    a query that keeps failing is retried at most twice and never waits
    two different delays (the recipe queries wait once, the weather
    query twice 1000 ms), and a mutation is never retried. *)
Theorem fixed_retry_configuration :
  (forall o, Configured o -> fixedRetry o) /\
  retry (queries queryClient) = Some (RetryNumber 1) /\
  (forall searchTerm page isEnabled,
     retry (useSearchRecipes searchTerm page isEnabled) = Some (RetryNumber 1)) /\
  retry useFavouriteRecipes = Some (RetryNumber 1) /\
  (forall recipeId isEnabled,
     retry (useRecipeSummary recipeId isEnabled) = Some (RetryNumber 1)) /\
  (forall location isEnabled,
     retry (useWeatherSuggestions location isEnabled) = Some (RetryNumber 2) /\
     retryDelay (useWeatherSuggestions location isEnabled)
       = Some (DelayNumber 1000)) /\
  mutationRetry (mutations queryClient) = Some (RetryNumber 0) /\
  mutationRetry useAddFavouriteRecipe = None /\
  mutationRetry useRemoveFavouriteRecipe = None /\
  (forall defaultRetry defaultRetryDelay fuel o,
     Configured o ->
     steady (queryDelays defaultRetry defaultRetryDelay fuel o) /\
     length (queryDelays defaultRetry defaultRetryDelay fuel o) <= 2) /\
  (forall defaultRetry defaultRetryDelay fuel location isEnabled,
     queryDelays defaultRetry defaultRetryDelay (S (S fuel))
       (useWeatherSuggestions location isEnabled) = [1000; 1000]%Z) /\
  (forall defaultRetry defaultRetryDelay fuel,
     mutationDelays defaultRetry defaultRetryDelay fuel useAddFavouriteRecipe
       = [] /\
     mutationDelays defaultRetry defaultRetryDelay fuel useRemoveFavouriteRecipe
       = []).
Proof.
  split.
  { intros o [| | | |]; (split; [eexists; reflexivity|]); simpl; eauto. }
  do 8 (split; [repeat split|]).
  split; [|split].
  - intros defaultRetry defaultRetryDelay fuel o Ho.
    assert (exists n wait,
              queryDelays defaultRetry defaultRetryDelay fuel o = repeat wait n
              /\ n <= 2) as (n & wait & -> & Hn).
    { destruct Ho; destruct fuel as [|[|[|fuel]]];
        first [ exists 0, 0%Z; split; [reflexivity | lia]
              | exists 1, (defaultRetryDelay 0%Z); split; [reflexivity | lia]
              | exists 1, 1000%Z; split; [reflexivity | lia]
              | exists 2, 1000%Z; split; [reflexivity | lia] ]. }
    split; [apply steady_single | rewrite repeat_length; exact Hn].
  - intros. destruct fuel; reflexivity.
  - intros defaultRetry defaultRetryDelay fuel.
    destruct fuel; split; reflexivity.
Qed.

End Retry.

(** ** The theorems at sample requests *)

Section Instances.
Import JS Http RecipeApi Spec Samples.

Local Abbreviation foodWine :=
  (FoodWine.handler answerOptions allowAnyOrigin emptyResults).
Local Abbreviation recipeDetail :=
  (RecipeDetail.handler answerOptions allowAnyOrigin emptyResults).

Ltac invalid_id :=
  let v := fresh "v" in let Hv := fresh "Hv" in let D := fresh "D" in
  intros (v & Hv & [_ D]); vm_compute in Hv; injection Hv as <-;
  vm_compute in D; discriminate.

Ltac valid_id :=
  eexists; split; [vm_compute; reflexivity | split; [discriminate | reflexivity]].

Ltac forwarded :=
  split; [reflexivity | intros ? [= <-]; split; reflexivity].

Ltac not_rejected :=
  let H := fresh in intros [H _]; vm_compute in H; discriminate.

Ltac other_segment :=
  let H := fresh in intros H; vm_compute in H; discriminate.

Lemma recipe_id_checked_first_witness :
  rejects (recipeDetail postBadId fresh) 400 "Valid recipe ID is required".
Proof.
  apply (recipe_id_checked_first answerOptions allowAnyOrigin emptyResults
           postBadId fresh); [reflexivity | invalid_id].
Defined.

(** C9 as first stated fails on [OPTIONS /api/recipes/abc/summary] when
    the preflight helper answers [OPTIONS] requests: the [recipeId] is
    not made of digits, yet the handler returns before it looks at it
    and the answer is the helper's, not 400. *)
Lemma recipe_id_checked_first_counterexample :
  ~ validRecipeId optionsBadId /\
  (answerOptions optionsBadId fresh).1 = true /\
  recipeDetail optionsBadId fresh = (status fresh 200, []) /\
  ~ rejects (recipeDetail optionsBadId fresh) 400 "Valid recipe ID is required".
Proof.
  split; [invalid_id|]. do 2 (split; [reflexivity|]).
  intros (_ & H & _). vm_compute in H. discriminate.
Qed.

Lemma method_not_allowed_witness :
  rejects (foodWine postGoodId fresh) 405 "Method not allowed" /\
  rejects (recipeDetail postGoodId fresh) 405 "Method not allowed".
Proof.
  destruct (method_not_allowed answerOptions allowAnyOrigin emptyResults
              postGoodId fresh) as [A B];
    [other_segment | reflexivity |].
  split; [exact A | apply B; valid_id].
Defined.

(** C1 as first stated fails on [POST /api/recipes/abc/summary]: the
    request is not a GET and not a preflight, and the recipe-detail
    handler answers 400. *)
Lemma method_not_allowed_counterexample :
  ~ isGet postBadId /\
  (answerOptions postBadId fresh).1 = false /\
  statusCode (recipeDetail postBadId fresh).1 = 400%Z /\
  ~ rejects (recipeDetail postBadId fresh) 405 "Method not allowed".
Proof.
  split; [other_segment|]. repeat (split; [reflexivity|]). not_rejected.
Qed.

Lemma unknown_action_witness :
  rejects (foodWine getUnknown fresh) 404 "Not found" /\
  rejects (recipeDetail getUnknown fresh) 404 "Not found".
Proof.
  destruct (unknown_action answerOptions allowAnyOrigin emptyResults
              getUnknown fresh) as [A B]; [reflexivity | reflexivity |].
  split; [apply A; other_segment | apply B; [valid_id | other_segment ..]].
Defined.

(** C5 as first stated fails on [GET /api/recipes/abc/unknown]: the
    first segment is not a handled action, and the recipe-detail
    handler answers 400. *)
Lemma unknown_action_counterexample :
  isGet getUnknownBadId /\
  (answerOptions getUnknownBadId fresh).1 = false /\
  firstSegment getUnknownBadId = Some (lit "unknown") /\
  statusCode (recipeDetail getUnknownBadId fresh).1 = 400%Z /\
  ~ rejects (recipeDetail getUnknownBadId fresh) 404 "Not found".
Proof.
  repeat (split; [reflexivity|]). not_rejected.
Qed.

Lemma required_parameter_witness :
  rejects (foodWine pairingBlankFood fresh) 400 "Food name is required" /\
  rejects (foodWine dishesNoWine fresh) 400 "Wine type is required".
Proof.
  split.
  - apply (required_parameter answerOptions allowAnyOrigin emptyResults
             pairingBlankFood fresh); [reflexivity ..|].
    right. eexists. split; vm_compute; reflexivity.
  - apply (required_parameter answerOptions allowAnyOrigin emptyResults
             dishesNoWine fresh); [reflexivity ..|].
    left. vm_compute. reflexivity.
Defined.

Lemma upstream_failure_witness :
  reportsError
    (RecipeDetail.handler answerOptions allowAnyOrigin overQuota getSummary fresh)
    "Failed to fetch recipe data" (lit "API limit reached") /\
  reportsError
    (FoodWine.handler answerOptions allowAnyOrigin overQuota pairingZeroPrice fresh)
    "Failed to process request" (lit "API limit reached").
Proof.
  split.
  - apply (upstream_failure answerOptions allowAnyOrigin overQuota getSummary
             fresh (getRecipeSummary (str "716429")) (lit "API limit reached"));
      reflexivity.
  - apply (upstream_failure answerOptions allowAnyOrigin overQuota
             pairingZeroPrice fresh
             (getWinePairing (Some (str "steak")) (Some (S754_zero false)))
             (lit "API limit reached"));
      reflexivity.
Defined.

Lemma dispatch_on_first_segment_witness :
  (exists options,
     forwards emptyResults (recipeDetail getInformation fresh)
       (getRecipeInformation (str "716429") options) /\
     includeNutrition options = true /\
     addTasteData options = false) /\
  forwards emptyResults (recipeDetail similarFive fresh)
    (getSimilarRecipes (str "716429") (of_Z 5)).
Proof.
  split.
  - destruct (dispatch_on_first_segment answerOptions allowAnyOrigin
                emptyResults getInformation fresh (str "716429")
                (lit "information"))
      as [A _]; [reflexivity | reflexivity | reflexivity
                | split; [discriminate | reflexivity] | reflexivity |].
    destruct (A eq_refl) as (options & F & N & _ & T).
    exists options. split; [exact F|]. split.
    + apply N. reflexivity.
    + destruct (addTasteData options); [|reflexivity].
      destruct T as [T _]. specialize (T eq_refl). vm_compute in T.
      discriminate.
  - destruct (dispatch_on_first_segment answerOptions allowAnyOrigin
                emptyResults similarFive fresh (str "716429") (lit "similar"))
      as (_ & B & _); [reflexivity | reflexivity | reflexivity
                | split; [discriminate | reflexivity] | reflexivity |].
    apply (B eq_refl). repeat split.
Defined.

(** C3 as first stated fails on
    [GET /api/recipes/716429/similar?number=0], which is answered 400
    without a call to [getSimilarRecipes], and on
    [GET /api/recipes/716429/summary] when [getRecipeSummary] throws,
    which is answered 402. *)
Lemma dispatch_on_first_segment_counterexample :
  (isGet similarZero /\
   query similarZero !! lit "recipeId" = Some (str "716429") /\
   firstSegment similarZero = Some (lit "similar") /\
   rejects (recipeDetail similarZero fresh) 400
     "Number must be between 1 and 100" /\
   statusCode (recipeDetail similarZero fresh).1 <> 200%Z) /\
  (isGet getSummary /\
   query getSummary !! lit "recipeId" = Some (str "716429") /\
   firstSegment getSummary = Some (lit "summary") /\
   let out := RecipeDetail.handler answerOptions allowAnyOrigin overQuota
                getSummary fresh in
   out.2 = [getRecipeSummary (str "716429")] /\
   statusCode out.1 = 402%Z /\
   statusCode out.1 <> 200%Z).
Proof.
  split.
  - repeat (split; [reflexivity|]). split; [repeat split | discriminate].
  - repeat (split; [reflexivity|]). discriminate.
Qed.

Lemma wine_pairing_max_price_witness :
  forwards emptyResults (foodWine pairingZeroPrice fresh)
    (getWinePairing (Some (str "steak")) (Some (S754_zero false))).
Proof.
  destruct (wine_pairing_max_price answerOptions allowAnyOrigin emptyResults
              pairingZeroPrice fresh (lit "steak")) as [_ B];
    [reflexivity ..|].
  apply (B (str "0")); [reflexivity | discriminate | reflexivity ..].
Defined.

(** C6 as first stated fails on
    [GET /api/food/wine/pairing?food=steak&maxPrice=]: [maxPrice] is
    present and [parseFloat("")] is NaN, yet [getWinePairing] is called
    with [undefined]; and on [GET /api/food/wine/pairing?food=%20&maxPrice=5]:
    [food] is not empty and 5 is acceptable, yet the answer is 400 and
    nothing is called. *)
Lemma wine_pairing_max_price_counterexample :
  (isGet pairingEmptyPrice /\
   query pairingEmptyPrice !! lit "food" = Some (str "steak") /\
   query pairingEmptyPrice !! lit "maxPrice" = Some (str "") /\
   isNaN (parseFloat (toString (str ""))) = true /\
   forwards emptyResults (foodWine pairingEmptyPrice fresh)
     (getWinePairing (Some (str "steak")) None) /\
   ~ rejects (foodWine pairingEmptyPrice fresh) 400
       "maxPrice must be a positive number") /\
  (isGet pairingBlankFoodPrice /\
   query pairingBlankFoodPrice !! lit "food" = Some (str " ") /\
   str " " <> str "" /\
   query pairingBlankFoodPrice !! lit "maxPrice" = Some (str "5") /\
   isNaN (parseFloat (toString (str "5"))) = false /\
   num_lt (parseFloat (toString (str "5"))) (of_Z 0) = false /\
   rejects (foodWine pairingBlankFoodPrice fresh) 400 "Food name is required" /\
   ~ forwards emptyResults (foodWine pairingBlankFoodPrice fresh)
       (getWinePairing (Some (str " ")) (Some (parseFloat (lit "5"))))).
Proof.
  split.
  - repeat (split; [reflexivity|]). split; [forwarded | not_rejected].
  - do 2 (split; [reflexivity|]). split; [discriminate|].
    repeat (split; [reflexivity|]). split; [repeat split | not_rejected].
Qed.

Lemma similar_number_witness :
  forwards emptyResults (recipeDetail similarFive fresh)
    (getSimilarRecipes (str "716429") (of_Z 5)).
Proof.
  destruct (similar_number answerOptions allowAnyOrigin emptyResults
              similarFive fresh (str "716429")) as [_ B];
    [reflexivity | reflexivity | reflexivity
    | split; [discriminate | reflexivity] | reflexivity |].
  apply (B (str "5")); [reflexivity | discriminate | reflexivity ..].
Defined.

(** C7 as first stated fails on [GET /api/recipes/716429/similar?number=]:
    [number] is present and [parseInt("", 10)] is NaN, yet
    [getSimilarRecipes] is called with 10. *)
Lemma similar_number_counterexample :
  isGet similarEmptyNumber /\
  query similarEmptyNumber !! lit "number" = Some (str "") /\
  isNaN (parseInt10 (toString (str ""))) = true /\
  forwards emptyResults (recipeDetail similarEmptyNumber fresh)
    (getSimilarRecipes (str "716429") (of_Z 10)) /\
  ~ rejects (recipeDetail similarEmptyNumber fresh) 400
      "Number must be between 1 and 100".
Proof.
  repeat (split; [reflexivity|]). split; [forwarded | not_rejected].
Qed.

End Instances.

(** ** What holds of every request *)

Section EveryRequest.
Import JS Http RecipeApi Spec Safety.

Variable handleCorsPreflight : Request -> Response -> bool * Response.
Variable setCorsHeaders : Response -> Response.
Variable upstream : ApiCall -> Json + Thrown.

Local Abbreviation foodWine :=
  (FoodWine.handler handleCorsPreflight setCorsHeaders upstream).
Local Abbreviation recipeDetail :=
  (RecipeDetail.handler handleCorsPreflight setCorsHeaders upstream).

Lemma isBlank_cases name v :
  isBlank name v = ret true \/
  (isBlank name v = ret false /\ filledText v) \/
  exists error, isBlank name v = throw error.
Proof.
  destruct v as [[s|l]|].
  - destruct (blank s) eqn:Hs.
    + left. apply isBlank_missing. right. eauto.
    + right. left. split; [apply isBlank_present, Hs | exists s; auto].
  - right. right. eexists. reflexivity.
  - left. reflexivity.
Qed.

Lemma await_outcome (P : ApiCall -> Prop) response c :
  P c ->
  routeOutcome P upstream response
    (do results <- await upstream c; ret (json (status response 200) results)).
Proof.
  intros Hc. right. right. exists c. split; [exact Hc|].
  unfold await, bind. destruct (upstream c); reflexivity.
Qed.

Lemma rejected_outcome (P : ApiCall -> Prop) response (code : Z) text :
  (code = 400 \/ code = 404)%Z ->
  routeOutcome P upstream response
    (ret (json (status response code) (errorBody text))).
Proof. intros Hc. left. exists code, text. split; [exact Hc | reflexivity]. Qed.

Lemma foodWine_outcome request response action :
  routeOutcome (fun c => sanitised c /\ aboutWine c = true) upstream response
    (FoodWine.route upstream request response action).
Proof.
  unfold FoodWine.route. repeat case_bool_decide.
  - destruct (isBlank_cases "wine" (query request !! lit "wine"))
      as [-> | [[-> Hw] | [error ->]]].
    + rewrite (bind_ret true). apply rejected_outcome. auto.
    + rewrite (bind_ret false). apply await_outcome. split; [exact Hw | reflexivity].
    + right. left. exists error. reflexivity.
  - destruct (isBlank_cases "food" (query request !! lit "food"))
      as [-> | [[-> Hf] | [error ->]]].
    + rewrite (bind_ret true). apply rejected_outcome. auto.
    + rewrite (bind_ret false).
      destruct (if truthy (query request !! lit "maxPrice")
                then parseFloat <$> (toString <$> query request !! lit "maxPrice")
                else None) as [price|] eqn:Hp.
      * destruct (isNaN price || num_lt price (of_Z 0)) eqn:Hbad.
        -- apply rejected_outcome. auto.
        -- apply await_outcome. apply orb_false_iff in Hbad.
           split; [split; [exact Hf | exact Hbad] | reflexivity].
      * apply await_outcome. split; [split; [exact Hf | exact I] | reflexivity].
    + right. left. exists error. reflexivity.
  - apply rejected_outcome. auto.
Qed.

Lemma recipeDetail_outcome request response recipeId action :
  digitsOnly (toString recipeId) ->
  routeOutcome (fun c => sanitised c /\ aboutWine c = false) upstream response
    (RecipeDetail.route upstream request response recipeId action).
Proof.
  intros Hid. unfold RecipeDetail.route. repeat case_bool_decide.
  - apply await_outcome. split; [exact Hid | reflexivity].
  - match goal with |- context [if ?b then _ else _] => destruct b eqn:Hbad end.
    + apply rejected_outcome. auto.
    + apply await_outcome. apply orb_false_iff in Hbad as [Hbad H3].
      apply orb_false_iff in Hbad as [H1 H2].
      split; [split; [exact Hid | repeat split; assumption] | reflexivity].
  - apply await_outcome. split; [exact Hid | reflexivity].
  - apply rejected_outcome. auto.
Qed.

Lemma statusCodeOf_cases message :
  statusCodeOf message = 402%Z \/ statusCodeOf message = 500%Z.
Proof. unfold statusCodeOf. destruct (_ || _); auto. Qed.

(** Leaving a handler after its [try] block. *)
Lemma finish_wellBehaved (P : ApiCall -> Prop) response text run :
  routeOutcome P upstream response run ->
  wellBehaved P upstream
    match run with
    | (calls, inl response') => (response', calls)
    | (calls, inr error) =>
        (json (status response (statusCodeOf (messageOf error)))
           (JObject [(lit "error", JString text);
                     (lit "message", JString (messageOf error))]), calls)
    end.
Proof.
  unfold wellBehaved, knownStatus.
  intros [(code & text' & Hcode & ->) | [(error & ->) | (c & Hc & ->)]].
  - simpl. split; [lia|]. split; [eexists; reflexivity|]. split; [lia|].
    split; [intros ? [] | lia].
  - simpl. destruct (statusCodeOf_cases (messageOf error)) as [E | E];
      rewrite E; (split; [lia|]); (split; [eexists; reflexivity|]); (split; [lia|]);
      (split; [intros ? [] | discriminate]).
  - destruct (upstream c) as [results|error] eqn:Hup; simpl.
    + split; [lia|]. split; [eexists; reflexivity|]. split; [lia|]. split.
      * intros ? [<- | []]. exact Hc.
      * intros _. exists c, results. auto.
    + destruct (statusCodeOf_cases (messageOf error)) as [E | E];
        rewrite E; (split; [lia|]); (split; [eexists; reflexivity|]); (split; [lia|]);
        (split; [intros ? [<- | []]; exact Hc | discriminate]).
Qed.

Lemma rejection_wellBehaved (P : ApiCall -> Prop) response (code : Z) text :
  In code [400; 405]%Z ->
  wellBehaved P upstream (json (status response code) (errorBody text), []).
Proof.
  intros Hcode. unfold wellBehaved, knownStatus; simpl in *.
  split; [lia|]. split; [eexists; reflexivity|]. split; [lia|]. split; [intros ? [] | lia].
Qed.

Lemma foodWine_wellBehaved request response :
  (handleCorsPreflight request response).1 = false ->
  wellBehaved (fun c => sanitised c /\ aboutWine c = true) upstream
    (foodWine request response).
Proof.
  intros Hpre. unfold FoodWine.handler.
  destruct (handleCorsPreflight _ _) as [answered response'].
  simpl in Hpre; subst answered.
  destruct (negb _).
  - apply rejection_wellBehaved. simpl; auto.
  - cbv zeta. apply finish_wellBehaved, foodWine_outcome.
Qed.

Lemma recipeDetail_wellBehaved request response :
  (handleCorsPreflight request response).1 = false ->
  wellBehaved (fun c => sanitised c /\ aboutWine c = false) upstream
    (recipeDetail request response).
Proof.
  intros Hpre. unfold RecipeDetail.handler.
  destruct (handleCorsPreflight _ _) as [answered response'].
  simpl in Hpre; subst answered. cbv zeta.
  destruct (negb (truthy _) || negb (RecipeDetail.allDigits _)) eqn:Hid.
  - apply rejection_wellBehaved. simpl; auto.
  - destruct (negb (bool_decide _)).
    + apply rejection_wellBehaved. simpl; auto.
    + apply finish_wellBehaved, recipeDetail_outcome.
      apply orb_false_iff in Hid as [_ Hid].
      apply negb_false_iff in Hid. apply allDigits_spec, Hid.
Qed.

(** A preflight that is answered ends the handler at once. *)
Lemma answered_preflight request response :
  (handleCorsPreflight request response).1 = true ->
  (foodWine request response).2 = [] /\ (recipeDetail request response).2 = [].
Proof.
  intros Hpre. unfold FoodWine.handler, RecipeDetail.handler.
  destruct (handleCorsPreflight _ _) as [answered response'].
  simpl in Hpre; subst answered. split; reflexivity.
Qed.

(** X1: no request makes a handler call the upstream API more than
    once. *)
Theorem single_upstream_call request response :
  length (FoodWine.handler handleCorsPreflight setCorsHeaders upstream
            request response).2 <= 1 /\
  length (RecipeDetail.handler handleCorsPreflight setCorsHeaders upstream
            request response).2 <= 1.
Proof.
  destruct ((handleCorsPreflight request response).1) eqn:Hpre.
  - destruct (answered_preflight _ _ Hpre) as [-> ->]. simpl. lia.
  - split.
    + apply (foodWine_wellBehaved _ _ Hpre).
    + apply (recipeDetail_wellBehaved _ _ Hpre).
Qed.

(** X2: a handler calls the upstream API only for a GET request that
    was not answered as a preflight, and the recipe-detail handler only
    when the [recipeId] is valid as well. *)
Theorem upstream_only_for_get request response :
  ((foodWine request response).2 <> [] ->
   isGet request /\ (handleCorsPreflight request response).1 = false) /\
  ((recipeDetail request response).2 <> [] ->
   isGet request /\ (handleCorsPreflight request response).1 = false /\
   validRecipeId request).
Proof.
  unfold FoodWine.handler, RecipeDetail.handler, isGet.
  destruct (handleCorsPreflight _ _) as [[|] response']; simpl;
    [split; congruence|].
  split.
  - case_bool_decide; simpl; [auto | congruence].
  - cbv zeta. destruct (_ || _) eqn:Hid; [simpl; congruence|].
    apply recipeId_check in Hid.
    case_bool_decide; simpl; [auto | congruence].
Qed.

(** X3: whatever the request, an answer a handler gives itself has one
    of the statuses 200, 400, 402, 404, 405, 500 and a JSON body. *)
Theorem status_always_known request response :
  (handleCorsPreflight request response).1 = false ->
  (knownStatus (statusCode (foodWine request response).1) /\
   is_Some (body (foodWine request response).1)) /\
  (knownStatus (statusCode (recipeDetail request response).1) /\
   is_Some (body (recipeDetail request response).1)).
Proof.
  intros Hpre.
  destruct (foodWine_wellBehaved _ _ Hpre) as (A & B & _).
  destruct (recipeDetail_wellBehaved _ _ Hpre) as (C & D & _).
  auto.
Qed.


(** X5: the upstream API only ever sees checked arguments.  The
    food/wine handler calls only the wine functions, with a food or
    wine that is a string and not blank and a price that is undefined
    or neither NaN nor below zero; the recipe-detail handler calls only
    the recipe functions, with a [recipeId] that reads as digits and a
    number that is neither NaN, below 1 nor above 100. *)
Theorem upstream_calls_sanitised request response :
  (forall c, In c (foodWine request response).2 ->
     sanitised c /\ aboutWine c = true) /\
  (forall c, In c (recipeDetail request response).2 ->
     sanitised c /\ aboutWine c = false).
Proof.
  destruct ((handleCorsPreflight request response).1) eqn:Hpre.
  - destruct (answered_preflight _ _ Hpre) as [-> ->].
    split; intros c [].
  - split.
    + apply (foodWine_wellBehaved _ _ Hpre).
    + apply (recipeDetail_wellBehaved _ _ Hpre).
Qed.

(** X6: on a GET request to the [dishes] route that is not answered as
    a preflight, a [wine] that is a string and not blank is passed to
    [getDishPairingForWine], and the results come back with 200. *)
Theorem dishes_forwards request response wine :
  isGet request ->
  (handleCorsPreflight request response).1 = false ->
  firstSegment request = Some (lit "dishes") ->
  query request !! lit "wine" = Some (QStr wine) ->
  blank wine = false ->
  forwards upstream (foodWine request response)
    (getDishPairingForWine (Some (QStr wine))).
Proof.
  intros Hget Hpre Hseg Hwine Hblank. unfold FoodWine.handler, isGet in *.
  destruct (handleCorsPreflight _ _) as [answered response'].
  simpl in Hpre; subst answered.
  rewrite bool_decide_eq_true_2 by exact Hget. simpl negb. cbv iota zeta.
  rewrite (action_segment _ _ Hseg). unfold FoodWine.route.
  rewrite bool_decide_eq_true_2 by reflexivity.
  rewrite Hwine, (isBlank_present _ _ Hblank), (bind_ret false).
  apply forwards_await.
Qed.

(** X7: a repeated [wine] or [food] parameter (an array) is not
    refused with 400: [trim] is not a function of an array, the
    [TypeError] is caught, and the answer is 500 with the body
    [{ error: "Failed to process request", message }], the message
    being that of the [TypeError], without any upstream call. *)
Theorem array_parameter_fails request response (values : list jsstring) :
  isGet request ->
  (handleCorsPreflight request response).1 = false ->
  (firstSegment request = Some (lit "dishes") ->
   query request !! lit "wine" = Some (QArr values) ->
   failsWith (foodWine request response) "Failed to process request"
     (lit "wine.trim is not a function")) /\
  (firstSegment request = Some (lit "pairing") ->
   query request !! lit "food" = Some (QArr values) ->
   failsWith (foodWine request response) "Failed to process request"
     (lit "food.trim is not a function")).
Proof.
  intros Hget Hpre. unfold isGet in Hget.
  split; intros Hseg Hq; unfold FoodWine.handler;
    destruct (handleCorsPreflight _ _) as [answered response'];
    simpl in Hpre; subst answered;
    rewrite bool_decide_eq_true_2 by exact Hget; simpl negb; cbv iota zeta;
    rewrite (action_segment _ _ Hseg); unfold FoodWine.route.
  - rewrite bool_decide_eq_true_2 by reflexivity. rewrite Hq.
    repeat split.
  - rewrite bool_decide_eq_false_2 by discriminate.
    rewrite bool_decide_eq_true_2 by reflexivity. rewrite Hq.
    repeat split.
Qed.

Lemma isDigit_cases c :
  isDigit c = true -> In c [48; 49; 50; 51; 52; 53; 54; 55; 56; 57]%N.
Proof.
  unfold isDigit. rewrite andb_true_iff, !N.leb_le. simpl. lia.
Qed.

Lemma spanDigits_app d t :
  forallb isDigit d = true -> endsDigits t -> spanDigits (d ++ t) = (d, t).
Proof.
  intros Hd Ht. induction d as [|c d IH]; simpl in *.
  - destruct t as [|c t]; [reflexivity|]. simpl in *. rewrite Ht. reflexivity.
  - apply andb_true_iff in Hd as [Hc Hd]. rewrite Hc, (IH Hd). reflexivity.
Qed.

(** [parseInt] reads the leading digits and ignores what follows. *)
Lemma parseInt10_digits d t :
  d <> [] -> forallb isDigit d = true -> endsDigits t ->
  digitsValue d <> 0%Z ->
  parseInt10 (d ++ t) = of_Z (digitsValue d).
Proof.
  intros Hne Hd Ht Hv. destruct d as [|c d]; [contradiction|].
  unfold parseInt10.
  assert (spanSign (trimStart ((c :: d) ++ t)) = (false, (c :: d) ++ t)) as ->.
  { simpl in Hd. apply andb_true_iff in Hd as [Hc _].
    apply isDigit_cases in Hc. simpl in Hc.
    destruct Hc as [<-|[<-|[<-|[<-|[<-|[<-|[<-|[<-|[<-|[<-|[]]]]]]]]]]];
      reflexivity. }
  rewrite (spanDigits_app _ _ Hd Ht).
  apply Z.eqb_neq in Hv. rewrite Hv. reflexivity.
Qed.

Lemma of_Z_accepted z : (1 <= z <= 100)%Z -> acceptedNumber (of_Z z).
Proof.
  intros Hz.
  assert (forallb (fun k =>
            negb (isNaN (of_Z (Z.of_nat k)))
            && negb (num_lt (of_Z (Z.of_nat k)) (of_Z 1))
            && negb (num_lt (of_Z 100) (of_Z (Z.of_nat k))))
            (seq 1 100) = true) as Hall by (vm_compute; reflexivity).
  rewrite forallb_forall in Hall.
  specialize (Hall (Z.to_nat z)). rewrite Z2Nat.id in Hall by lia.
  assert (In (Z.to_nat z) (seq 1 100)) as Hin by (apply in_seq; lia).
  apply Hall in Hin. rewrite !andb_true_iff, !negb_true_iff in Hin.
  unfold acceptedNumber. tauto.
Qed.

(** X8: the [similar] route reads [number] leniently: when it starts
    with digits whose value is between 1 and 100, whatever follows the
    digits is ignored and that value is passed to
    [getSimilarRecipes]. *)
Theorem similar_number_lenient request response recipeId d t :
  isGet request ->
  (handleCorsPreflight request response).1 = false ->
  query request !! lit "recipeId" = Some recipeId ->
  digitsOnly (toString recipeId) ->
  firstSegment request = Some (lit "similar") ->
  query request !! lit "number" = Some (QStr (d ++ t)) ->
  forallb isDigit d = true -> endsDigits t ->
  (1 <= digitsValue d <= 100)%Z ->
  forwards upstream (recipeDetail request response)
    (getSimilarRecipes recipeId (of_Z (digitsValue d))).
Proof.
  intros Hget Hpre Hq Hid Hseg Hn Hd Ht Hv.
  assert (d <> []) as Hne
    by (intros ->; change (digitsValue []) with 0%Z in Hv; lia).
  rewrite (recipeDetail_routed _ _ _ _ _ _ _ Hget Hq Hid Hseg).
  destruct (handleCorsPreflight _ _) as [answered response'].
  simpl in Hpre; subst answered. unfold RecipeDetail.route.
  rewrite bool_decide_eq_false_2 by discriminate.
  rewrite bool_decide_eq_true_2 by reflexivity.
  rewrite Hn.
  assert (truthy (Some (QStr (d ++ t))) = true) as ->
    by (destruct d; [contradiction | reflexivity]).
  simpl toString. rewrite (parseInt10_digits d t) by (auto; lia).
  destruct (of_Z_accepted _ Hv) as (-> & -> & ->). simpl.
  apply forwards_await.
Qed.

End EveryRequest.

(** ** More about the string utilities *)

Section StringUtilities.
Import JS StringUtils Spec.

Lemma capitalizeWords_Some s :
  capitalizeWords (Some s) = replaceWordStarts toUpperCase false s.
Proof. destruct s; reflexivity. Qed.

Lemma replaceWordStarts_upper prevWord s :
  toUpperCase (replaceWordStarts toUpperCase prevWord s) = toUpperCase s.
Proof.
  revert prevWord; induction s as [|c s IH]; intros prevWord; simpl;
    [reflexivity|].
  unfold toUpperCase in *. rewrite map_app, IH.
  destruct (isWordChar c && negb prevWord); simpl;
    rewrite ?upperUnit_idem; reflexivity.
Qed.

Lemma replaceWordStarts_separator prevWord a c b :
  isWordChar c = false ->
  replaceWordStarts toUpperCase prevWord (a ++ c :: b)
  = replaceWordStarts toUpperCase prevWord a
      ++ c :: replaceWordStarts toUpperCase false b.
Proof.
  intros Hc. revert prevWord; induction a as [|x a IH]; intros prevWord; simpl.
  - rewrite Hc. reflexivity.
  - rewrite IH, <- app_assoc. reflexivity.
Qed.

(** X9: [capitalizeWords] changes nothing but the case of letters: the
    result has the length of its argument and the same upper-cased
    form. *)
Theorem capitalizeWords_changes_case_only (s : jsstring) :
  length (capitalizeWords (Some s)) = length s /\
  toUpperCase (capitalizeWords (Some s)) = toUpperCase s.
Proof.
  rewrite capitalizeWords_Some.
  pose proof (replaceWordStarts_upper false s) as H. split; [|exact H].
  apply (f_equal (@length N)) in H. unfold toUpperCase in H.
  rewrite !length_map in H. exact H.
Qed.

(** X10: [capitalizeWords] works word by word: around a code unit that
    is not a word character, the two sides are capitalised on their
    own. *)
Theorem capitalizeWords_separator (a b : jsstring) (c : N) :
  isWordChar c = false ->
  capitalizeWords (Some (a ++ c :: b))
  = capitalizeWords (Some a) ++ c :: capitalizeWords (Some b).
Proof.
  intros Hc. rewrite !capitalizeWords_Some.
  apply replaceWordStarts_separator, Hc.
Qed.

Lemma addTargetBlankToLinks_Some s :
  addTargetBlankToLinks (Some s) = replaceAnchors 0 s.
Proof. destruct s; reflexivity. Qed.

Lemma replaceAnchors_match rest :
  replaceAnchors 0 (anchorOpen ++ rest) = anchorBlank ++ replaceAnchors 0 rest.
Proof. reflexivity. Qed.

Lemma replaceAnchors_step c r :
  startsWith (c :: r) anchorOpen = false ->
  replaceAnchors 0 (c :: r) = c :: replaceAnchors 0 r.
Proof.
  intros H. change (replaceAnchors 0 (c :: r))
    with (if startsWith (c :: r) anchorOpen
          then anchorBlank ++ replaceAnchors 2 r else c :: replaceAnchors 0 r).
  rewrite H. reflexivity.
Qed.

Lemma includes_cons c r sub :
  includes (c :: r) sub = startsWith (c :: r) sub || includes r sub.
Proof. reflexivity. Qed.

(** X11: [addTargetBlankToLinks] leaves a text without ["<a "]
    unchanged, and gives the empty string on [undefined]. *)
Theorem links_without_anchor_unchanged (s : jsstring) :
  ~ contains s anchorOpen ->
  addTargetBlankToLinks (Some s) = s /\ addTargetBlankToLinks None = [].
Proof.
  intros H. split; [|reflexivity].
  rewrite <- includes_spec in H. apply not_true_is_false in H.
  rewrite addTargetBlankToLinks_Some.
  induction s as [|c s IH]; [reflexivity|].
  rewrite includes_cons in H. apply orb_false_iff in H as [H1 H2].
  rewrite (replaceAnchors_step _ _ H1), (IH H2). reflexivity.
Qed.

(** Every anchor makes the text longer, and is still there afterwards. *)
Lemma replaceAnchors_grows n s :
  length s <= n ->
  length s <= length (replaceAnchors 0 s) /\
  (includes s anchorOpen = true ->
   length s < length (replaceAnchors 0 s) /\
   includes (replaceAnchors 0 s) anchorOpen = true).
Proof.
  revert s; induction n as [|n IH]; intros s Hn.
  - destruct s; [|simpl in Hn; lia]. split; [reflexivity | discriminate].
  - destruct s as [|c r]; [split; [reflexivity | discriminate]|].
    destruct (startsWith (c :: r) anchorOpen) eqn:Hs.
    + apply startsWith_spec in Hs as [rest Hs]. rewrite Hs in *.
      rewrite replaceAnchors_match.
      assert (length anchorOpen = 3) as H3 by reflexivity.
      assert (3 < length anchorBlank) as Hb by (vm_compute; lia).
      rewrite length_app, H3 in Hn.
      destruct (IH rest) as [Hle _]; [lia|].
      rewrite !length_app, H3.
      split; [lia|]. intros _. split; [lia | reflexivity].
    + rewrite (replaceAnchors_step _ _ Hs).
      destruct (IH r) as [Hle Hlt]; [simpl in Hn; lia|].
      split; [simpl; lia|].
      rewrite includes_cons, Hs. simpl orb. intros Hr.
      destruct (Hlt Hr) as [Hlen Hin]. split; [simpl; lia|].
      rewrite includes_cons, Hin. apply orb_true_r.
Qed.

(** X12: [addTargetBlankToLinks] is not idempotent: on a text with an
    anchor it gives a longer text, and applying it again gives a still
    longer one, the attributes being added once more. *)
Theorem links_not_idempotent (s : jsstring) :
  contains s anchorOpen ->
  length s < length (addTargetBlankToLinks (Some s)) /\
  length (addTargetBlankToLinks (Some s))
    < length (addTargetBlankToLinks (Some (addTargetBlankToLinks (Some s)))) /\
  addTargetBlankToLinks (Some (addTargetBlankToLinks (Some s)))
    <> addTargetBlankToLinks (Some s).
Proof.
  intros H. apply includes_spec in H. rewrite !addTargetBlankToLinks_Some.
  destruct (replaceAnchors_grows _ s (le_n _)) as [_ Hs].
  destruct (Hs H) as [Hlen Hin].
  destruct (replaceAnchors_grows _ (replaceAnchors 0 s) (le_n _)) as [_ Ht].
  destruct (Ht Hin) as [Hlen' _].
  split; [exact Hlen|]. split; [exact Hlen'|].
  intros Heq. rewrite Heq in Hlen'. lia.
Qed.

End StringUtilities.

(** ** The API client and the toasts *)

Section Client.
Import JS Http ApiClient App QueryConfig Spec.

(** A string that lacks one code unit of [sub] does not include [sub]. *)
Lemma includes_absent (s sub : jsstring) (u : N) :
  In u sub -> ~ In u s -> includes s sub = false.
Proof.
  intros Hsub Hs. apply not_true_is_false. rewrite includes_spec.
  intros (before & after & ->). apply Hs.
  rewrite !in_app_iff. auto.
Qed.

Lemma digitUnits_digits d u : In u (digitUnits d) -> isDigit u = true.
Proof.
  induction d; simpl; try contradiction; intros [<- | H]; auto.
Qed.

(** The message of an HTTP error holds neither a [p] nor a [y]. *)
Lemma httpError_units (n u : N) :
  (u = 112 \/ u = 121)%N ->
  ~ In u (lit "HTTP error! Status: " ++ integerToString n).
Proof.
  intros Hu H. apply in_app_iff in H as [H | H].
  - vm_compute in H. destruct Hu as [-> | ->]; intuition discriminate.
  - apply digitUnits_digits in H. destruct Hu as [-> | ->]; discriminate.
Qed.

(** X13: with a base URL configured, [getApiUrl] puts exactly one slash
    between the base and a path, whether or not the path brings its
    own; without one (undefined or empty) it returns the path as it
    is. *)
Theorem getApiUrl_joins (API_URL : option jsstring) (base path : jsstring) :
  (API_URL = None \/ API_URL = Some [] -> getApiUrl API_URL path = path) /\
  (API_URL = Some base -> base <> [] ->
   startsWith path (lit "/") = false ->
   getApiUrl API_URL path = base ++ lit "/" ++ path /\
   getApiUrl API_URL (lit "/" ++ path) = base ++ lit "/" ++ path).
Proof.
  split.
  - intros [-> | ->]; reflexivity.
  - intros -> Hb Hp. destruct base as [|c base]; [contradiction|].
    unfold getApiUrl. rewrite Hp. split; reflexivity.
Qed.

(** X14: no client function hands out the payload of a response that
    is not [ok]: each throws [Error("HTTP error! Status: <status>")]. *)
Theorem client_rejects_failed_response API_URL origin urlError numberToString
    fetch response :
  (forall r, fetch r = inl response) ->
  (forall input base, urlError input base = None) ->
  ok response = false ->
  (forall searchTerm page,
     searchRecipes API_URL origin urlError numberToString fetch searchTerm page
     = inr (httpError response)) /\
  (forall recipeId,
     getRecipeSummary API_URL fetch recipeId = inr (httpError response)) /\
  getFavouriteRecipes API_URL fetch = inr (httpError response) /\
  (forall recipe,
     addFavouriteRecipe API_URL fetch recipe = inr (httpError response) /\
     removeFavouriteRecipe API_URL fetch recipe = inr (httpError response)).
Proof.
  intros Hfetch Hurl Hok.
  unfold searchRecipes, getRecipeSummary, getFavouriteRecipes,
    addFavouriteRecipe, removeFavouriteRecipe, favouriteRequest.
  repeat split; intros; rewrite ?Hurl, Hfetch, Hok; reflexivity.
Qed.

(** X15: an HTTP error of the client never brings up the "Daily API
    limit reached" toast of the search nor the "already in favourites"
    toast: whatever the status (402 and 409 included), the toasts are
    the general ones. *)
Theorem http_error_toasts (response : FetchResponse) :
  exists text,
    httpError response = ThrownError text /\
    searchErrorToast (plainError text)
      = ToastError (lit "Failed to search recipes. Please try again.") /\
    addFavouriteOnError (plainError text)
      = ToastError (lit "Failed to add recipe to favourites.").
Proof.
  exists (lit "HTTP error! Status: " ++ integerToString (status response)).
  split; [reflexivity|].
  assert (includes (lit "HTTP error! Status: "
                      ++ integerToString (status response))
            (lit "points limit") = false) as Hlimit.
  { apply (includes_absent _ _ 112%N); [vm_compute; tauto|].
    apply httpError_units. auto. }
  assert (includes (lit "HTTP error! Status: "
                      ++ integerToString (status response))
            (lit "already") = false) as Halready.
  { apply (includes_absent _ _ 121%N); [vm_compute; tauto|].
    apply httpError_units. auto. }
  unfold searchErrorToast, addFavouriteOnError, messageIncludes, plainError.
  cbn [message code codeIs402]. rewrite Hlimit, Halready.
  split; reflexivity.
Qed.

(** X16: the search query of the application is enabled exactly when
    the search term is not empty and the search tab is selected. *)
Theorem search_query_enabled (searchTerm : jsstring) (page : jsnumber)
    (selectedTab : jsstring) :
  enabled (searchQuery searchTerm page selectedTab) = Some true
  <-> searchTerm <> [] /\ selectedTab = lit "search".
Proof.
  unfold searchQuery, useSearchRecipes; simpl.
  destruct searchTerm as [|c s]; simpl.
  - split; [discriminate | intros [H _]; contradiction].
  - rewrite andb_true_r. case_bool_decide; split; try discriminate; auto.
    + intros [_ ?]. contradiction.
Qed.

(** X17: the error banner of the search has a text exactly when there
    is a response whose status is "failure" or whose code is 402. *)
Theorem apiError_iff_failure (searchResponse : option SearchRecipesResponse) :
  apiError searchResponse <> []
  <-> exists response,
        searchResponse = Some response /\
        (responseStatus response = Some (lit "failure") \/
         codeIs402 (responseCode response) = true).
Proof.
  unfold apiError. destruct searchResponse as [response|].
  - destruct (bool_decide _ || codeIs402 _) eqn:Hf.
    + split.
      * intros _. exists response. split; [reflexivity|].
        apply orb_true_iff in Hf as [Hf | Hf]; [left | right; exact Hf].
        apply bool_decide_eq_true in Hf. exact Hf.
      * intros _. destruct (responseMessage response) as [[|c m]|]; simpl;
          discriminate.
    + split; [intros H; contradiction|].
      intros (r & [= <-] & H). apply orb_false_iff in Hf as [Hs Hc].
      apply bool_decide_eq_false in Hs. destruct H; congruence.
  - split; [intros H; contradiction | intros (r & H & _); discriminate].
Qed.

End Client.

(** ** The recipe context *)

Section Context.
Import JS RecipeContext.

Variable idToString : jsnumber -> jsstring.

Lemma get_without params name other :
  other <> name -> get (without params name) other = get params other.
Proof.
  intros Hne. unfold without.
  induction params as [|[k v] params IH]; [reflexivity|].
  rewrite filter_cons. simpl. case_decide; simpl.
  - rewrite IH. reflexivity.
  - rewrite IH. rewrite bool_decide_eq_false_2 by congruence. reflexivity.
Qed.

Lemma get_set_eq params name value : get (set params name value) name = Some value.
Proof.
  induction params as [|[k v] params IH]; simpl.
  - rewrite bool_decide_eq_true_2; reflexivity.
  - case_bool_decide; simpl.
    + rewrite bool_decide_eq_true_2 by assumption. reflexivity.
    + rewrite bool_decide_eq_false_2 by assumption. exact IH.
Qed.

Lemma get_set_ne params name value other :
  other <> name -> get (set params name value) other = get params other.
Proof.
  intros Hne. induction params as [|[k v] params IH]; simpl.
  - rewrite bool_decide_eq_false_2 by congruence. reflexivity.
  - case_bool_decide; simpl.
    + subst k. rewrite bool_decide_eq_false_2 by congruence.
      apply get_without, Hne.
    + case_bool_decide; [reflexivity | exact IH].
Qed.

Lemma without_absent params name : get (without params name) name = None.
Proof.
  unfold without. induction params as [|[k v] params IH]; [reflexivity|].
  rewrite filter_cons. simpl. case_decide; simpl; [|exact IH].
  rewrite bool_decide_eq_false_2 by assumption. exact IH.
Qed.

(** X18: after the tab effect the URL and the state name the same tab. *)
Theorem tab_effect_agrees (st : State) (location : Params) :
  selectedTab st <> [] ->
  get (tabEffect st location).2 (lit "tab")
  = Some (selectedTab (tabEffect st location).1).
Proof.
  intros Hne. unfold tabEffect.
  destruct (filled _ && isTab _ && negb (bool_decide _)) eqn:H1.
  - simpl. apply andb_true_iff in H1 as [H1 _].
    apply andb_true_iff in H1 as [H1 _].
    destruct (get location (lit "tab")) as [[|c t]|]; try discriminate.
    reflexivity.
  - destruct (filled (Some (selectedTab st)) && negb (bool_decide _)) eqn:H2.
    + simpl. apply get_set_eq.
    + simpl. apply andb_false_iff in H2 as [H2 | H2].
      * destruct (selectedTab st); [contradiction | discriminate].
      * apply negb_false_iff, bool_decide_eq_true in H2. exact H2.
Qed.

(** X19: the URL wins over the state.  When the URL names one of the
    two tabs, the tab effect makes the state follow it and leaves the
    URL alone, so a tab chosen in the state is undone; when the URL
    holds a search term, the search effect does the same with the
    term. *)
Theorem url_wins (st : State) (location : Params) (value : jsstring) :
  (get location (lit "tab") = Some value -> isTab value = true ->
   tabEffect st location = (withTab st value, location)) /\
  (get location (lit "search") = Some value -> value <> [] ->
   searchEffect st location = (withSearchTerm st value, location)).
Proof.
  split.
  - intros Hurl Htab. unfold tabEffect. rewrite Hurl.
    assert (filled (Some value) = true) as ->
      by (destruct value; [discriminate | reflexivity]).
    change (default [] (Some value)) with value. rewrite Htab.
    case_bool_decide as Heq; simpl; [|reflexivity].
    injection Heq as ->. rewrite andb_false_r. destruct st; reflexivity.
  - intros Hurl Hne. unfold searchEffect. rewrite Hurl.
    assert (filled (Some value) = true) as ->
      by (destruct value; [contradiction | reflexivity]).
    change (default [] (Some value)) with value.
    case_bool_decide as Heq; simpl; [|reflexivity].
    injection Heq as ->. rewrite andb_false_r. destruct st; reflexivity.
Qed.

(** X20: the tab and search effects settle at once: running either
    again on what it left changes nothing. *)
Theorem effects_settle (st : State) (location : Params) :
  tabEffect (tabEffect st location).1 (tabEffect st location).2
    = tabEffect st location /\
  searchEffect (searchEffect st location).1 (searchEffect st location).2
    = searchEffect st location.
Proof.
  split.
  - unfold tabEffect at 2 3 4.
    destruct (filled (get location (lit "tab"))
              && isTab (default [] (get location (lit "tab")))
              && negb (bool_decide (get location (lit "tab")
                                    = Some (selectedTab st)))) eqn:H1.
    + simpl. apply andb_true_iff in H1 as [H1 _].
      apply andb_true_iff in H1 as [H1 _].
      destruct (get location (lit "tab")) as [[|c t]|] eqn:Hurl;
        try discriminate.
      unfold tabEffect. rewrite Hurl. simpl.
      rewrite bool_decide_eq_true_2 by reflexivity.
      rewrite !andb_false_r. reflexivity.
    + destruct (filled (Some (selectedTab st))
                && negb (bool_decide (get location (lit "tab")
                                      = Some (selectedTab st)))) eqn:H2.
      * simpl. unfold tabEffect. rewrite get_set_eq.
        rewrite bool_decide_eq_true_2 by reflexivity.
        rewrite !andb_false_r. reflexivity.
      * simpl. unfold tabEffect. rewrite H1, H2. reflexivity.
  - unfold searchEffect at 2 3 4.
    destruct (filled (get location (lit "search"))
              && negb (bool_decide (get location (lit "search")
                                    = Some (searchTerm st)))) eqn:H1.
    + simpl. apply andb_true_iff in H1 as [H1 _].
      destruct (get location (lit "search")) as [[|c t]|] eqn:Hurl;
        try discriminate.
      unfold searchEffect. rewrite Hurl. simpl.
      rewrite bool_decide_eq_true_2 by reflexivity. reflexivity.
    + destruct (filled (Some (searchTerm st))
                && negb (filled (get location (lit "search")))) eqn:H2.
      * simpl. unfold searchEffect. rewrite get_set_eq.
        rewrite bool_decide_eq_true_2 by reflexivity.
        apply andb_true_iff in H2 as [H2 _]. rewrite H2. reflexivity.
      * simpl. unfold searchEffect. rewrite H1, H2. reflexivity.
Qed.

(** X21: the state only ever holds one of the two tabs: neither the
    mount effect nor the tab effect takes another value from the URL. *)
Theorem tab_stays_valid (st : State) (location : Params) :
  isTab (selectedTab st) = true ->
  isTab (selectedTab (tabEffect st location).1) = true /\
  isTab (selectedTab (mountEffect st location)) = true.
Proof.
  intros Hst. split.
  - unfold tabEffect.
    destruct (filled (get location (lit "tab"))
              && isTab (default [] (get location (lit "tab")))
              && negb (bool_decide (get location (lit "tab")
                                    = Some (selectedTab st)))) eqn:H1.
    + apply andb_true_iff in H1 as [H1 _].
      apply andb_true_iff in H1 as [_ H1]. exact H1.
    + destruct (filled (Some (selectedTab st))
                && negb (bool_decide (get location (lit "tab")
                                      = Some (selectedTab st))));
        exact Hst.
  - unfold mountEffect.
    destruct (filled (get location (lit "tab"))
              && isTab (default [] (get location (lit "tab")))) eqn:H1.
    + apply andb_true_iff in H1 as [_ H1]. exact H1.
    + destruct (filled (get location (lit "search"))); exact Hst.
Qed.

(** X22: closing a recipe leaves its id in the URL, and selecting a
    recipe while the URL holds another id is undone by the recipe
    effect; with no id in the URL the effect writes the id of the
    selection there. *)
Theorem recipe_effect_follows_url (st : State) (location : Params) :
  (selectedRecipe st = None ->
   recipeEffect idToString st location = (st, location)) /\
  (forall recipe urlId,
     selectedRecipe st = Some recipe ->
     get location (lit "recipeId") = Some urlId -> urlId <> [] ->
     urlId <> idToString (ApiClient.id recipe) ->
     recipeEffect idToString st location = (withRecipe st None, location)) /\
  (forall recipe,
     selectedRecipe st = Some recipe ->
     get location (lit "recipeId") = None ->
     get (recipeEffect idToString st location).2 (lit "recipeId")
       = Some (idToString (ApiClient.id recipe)) /\
     (recipeEffect idToString st location).1 = st).
Proof.
  unfold recipeEffect. split; [intros ->; reflexivity|]. split.
  - intros recipe urlId -> -> Hne Hdiff.
    assert (filled (Some urlId) = true) as ->
      by (destruct urlId; [contradiction | reflexivity]).
    simpl. rewrite bool_decide_eq_false_2 by congruence. reflexivity.
  - intros recipe -> ->. simpl. split; [apply get_set_eq | reflexivity].
Qed.

End Context.

(** ** The further theorems at sample inputs *)

Section MoreInstances.
Import JS Http RecipeApi Spec Safety Samples StringUtils QueryConfig.

Local Abbreviation foodWine :=
  (FoodWine.handler answerOptions allowAnyOrigin emptyResults).
Local Abbreviation recipeDetail :=
  (RecipeDetail.handler answerOptions allowAnyOrigin emptyResults).

Lemma upstream_only_for_get_witness :
  (isGet dishesMerlot /\ (answerOptions dishesMerlot fresh).1 = false) /\
  (isGet getSummary /\ (answerOptions getSummary fresh).1 = false /\
   validRecipeId getSummary).
Proof.
  destruct (upstream_only_for_get answerOptions allowAnyOrigin emptyResults
              dishesMerlot fresh) as [A _].
  destruct (upstream_only_for_get answerOptions allowAnyOrigin emptyResults
              getSummary fresh) as [_ B].
  split; [apply A | apply B]; vm_compute; discriminate.
Defined.

Lemma status_always_known_witness :
  (knownStatus (statusCode (foodWine getUnknown fresh).1) /\
   is_Some (body (foodWine getUnknown fresh).1)) /\
  (knownStatus (statusCode (recipeDetail getUnknown fresh).1) /\
   is_Some (body (recipeDetail getUnknown fresh).1)).
Proof.
  apply (status_always_known answerOptions allowAnyOrigin emptyResults
           getUnknown fresh). reflexivity.
Defined.


Lemma upstream_calls_sanitised_witness :
  (sanitised (getDishPairingForWine (Some (str "merlot"))) /\
   aboutWine (getDishPairingForWine (Some (str "merlot"))) = true) /\
  (sanitised (getRecipeSummary (str "716429")) /\
   aboutWine (getRecipeSummary (str "716429")) = false).
Proof.
  split.
  - apply (upstream_calls_sanitised answerOptions allowAnyOrigin emptyResults
             dishesMerlot fresh). left. reflexivity.
  - apply (upstream_calls_sanitised answerOptions allowAnyOrigin emptyResults
             getSummary fresh). left. reflexivity.
Defined.

Lemma dishes_forwards_witness :
  forwards emptyResults (foodWine dishesMerlot fresh)
    (getDishPairingForWine (Some (str "merlot"))).
Proof.
  apply (dishes_forwards answerOptions allowAnyOrigin emptyResults
           dishesMerlot fresh (lit "merlot")); reflexivity.
Defined.

Lemma array_parameter_fails_witness :
  failsWith (foodWine dishesTwoWines fresh) "Failed to process request"
    (lit "wine.trim is not a function").
Proof.
  apply (array_parameter_fails answerOptions allowAnyOrigin emptyResults
           dishesTwoWines fresh [lit "a"; lit "b"]); reflexivity.
Defined.

Lemma similar_number_lenient_witness :
  forwards emptyResults (recipeDetail similarSevenPx fresh)
    (getSimilarRecipes (str "716429") (of_Z 7)).
Proof.
  apply (similar_number_lenient answerOptions allowAnyOrigin emptyResults
           similarSevenPx fresh (str "716429") (lit "07") (lit "px"));
    try reflexivity.
  - split; [discriminate | reflexivity].
  - vm_compute. split; discriminate.
Defined.

Lemma capitalizeWords_separator_witness :
  capitalizeWords (Some (lit "red" ++ 32%N :: lit "wine"))
  = capitalizeWords (Some (lit "red")) ++ 32%N :: capitalizeWords (Some (lit "wine")).
Proof. apply capitalizeWords_separator. reflexivity. Defined.

Lemma links_without_anchor_unchanged_witness :
  addTargetBlankToLinks (Some (lit "<b>bold</b>")) = lit "<b>bold</b>" /\
  addTargetBlankToLinks None = [].
Proof.
  apply links_without_anchor_unchanged.
  rewrite <- includes_spec. vm_compute. discriminate.
Defined.

Lemma links_not_idempotent_witness :
  let once := addTargetBlankToLinks (Some (lit "<a href=x>")) in
  length (lit "<a href=x>") < length once /\
  length once < length (addTargetBlankToLinks (Some once)) /\
  addTargetBlankToLinks (Some once) <> once.
Proof.
  apply links_not_idempotent. exists [], (lit "href=x>"). reflexivity.
Defined.

Lemma getApiUrl_joins_witness :
  ApiClient.getApiUrl (Some (lit "https://api.example.com")) (lit "api/status")
    = lit "https://api.example.com" ++ lit "/" ++ lit "api/status" /\
  ApiClient.getApiUrl (Some (lit "https://api.example.com"))
    (lit "/" ++ lit "api/status")
    = lit "https://api.example.com" ++ lit "/" ++ lit "api/status".
Proof.
  apply (getApiUrl_joins (Some (lit "https://api.example.com"))
           (lit "https://api.example.com") (lit "api/status"));
    [reflexivity | discriminate | reflexivity].
Defined.

Lemma client_rejects_failed_response_witness :
  ApiClient.getFavouriteRecipes None fetchPaymentRequired
  = inr (ApiClient.httpError paymentRequired).
Proof.
  apply (client_rejects_failed_response None [] (fun _ _ => None)
           (fun _ => lit "1") fetchPaymentRequired paymentRequired);
    reflexivity.
Defined.

Lemma search_query_enabled_witness :
  enabled (App.searchQuery (lit "pasta") (of_Z 1) (lit "search")) = Some true.
Proof.
  apply search_query_enabled. split; [discriminate | reflexivity].
Defined.

Lemma apiError_iff_failure_witness :
  App.apiError
    (Some {| App.results := None;
             App.responseStatus := Some (lit "failure");
             App.responseCode := None;
             App.responseMessage := None |}) <> [].
Proof.
  apply apiError_iff_failure. eexists. split; [reflexivity|].
  left. reflexivity.
Defined.

Lemma tab_effect_agrees_witness :
  RecipeContext.get
    (RecipeContext.tabEffect RecipeContext.initial []).2 (lit "tab")
  = Some (RecipeContext.selectedTab
            (RecipeContext.tabEffect RecipeContext.initial []).1).
Proof. apply tab_effect_agrees. discriminate. Defined.

Lemma url_wins_witness :
  RecipeContext.tabEffect
    (RecipeContext.withTab RecipeContext.initial (lit "favourites"))
    [(lit "tab", lit "search")]
  = (RecipeContext.withTab
       (RecipeContext.withTab RecipeContext.initial (lit "favourites"))
       (lit "search"),
     [(lit "tab", lit "search")]).
Proof.
  apply (url_wins (RecipeContext.withTab RecipeContext.initial (lit "favourites"))
           [(lit "tab", lit "search")] (lit "search")); reflexivity.
Defined.

Lemma tab_stays_valid_witness :
  RecipeContext.isTab
    (RecipeContext.selectedTab
       (RecipeContext.tabEffect RecipeContext.initial
          [(lit "tab", lit "settings")]).1) = true /\
  RecipeContext.isTab
    (RecipeContext.selectedTab
       (RecipeContext.mountEffect RecipeContext.initial
          [(lit "tab", lit "settings")])) = true.
Proof. apply tab_stays_valid. reflexivity. Defined.

Lemma recipe_effect_follows_url_witness :
  RecipeContext.recipeEffect sampleIdToString
    (RecipeContext.withRecipe RecipeContext.initial (Some pasta))
    [(lit "recipeId", lit "1")]
  = (RecipeContext.withRecipe
       (RecipeContext.withRecipe RecipeContext.initial (Some pasta)) None,
     [(lit "recipeId", lit "1")]).
Proof.
  destruct (recipe_effect_follows_url sampleIdToString
              (RecipeContext.withRecipe RecipeContext.initial (Some pasta))
              [(lit "recipeId", lit "1")]) as (_ & A & _).
  apply (A pasta (lit "1")); [reflexivity | reflexivity | discriminate |].
  vm_compute. discriminate.
Defined.

End MoreInstances.
